(** * slackeventsapi.server: request verification and dispatch

    A shallow embedding of [src/slackeventsapi/server.py]: the class
    [SlackServer] (constructor, [get_package_info], [verify_signature],
    [bind_route] with its inner [base_checks] and the three view functions
    [event], [interactive], [options]) and [SlackEventAdapterException].

    Conventions of the model.
    - A Python [str] is a Rocq [string] holding its code points; code points
      above 255 are outside the model (WSGI hands header values over as
      Latin-1 text, so every header is covered).  [bytes] is [list byte].
    - The interpreter is described by a record [PyEnv]: the fields read by
      the code ([sys.version_info], [platform.system()], ..., and whether
      [hmac] has [compare_digest], the digit limit of [int]).  [int] reads
      the version (underscores from 3.6 on) and the digit limit; the other
      text operations follow Python 3 ([str.encode] is UTF-8, a dictionary
      is iterated in insertion order); of Python 2 the model has what the
      code itself distinguishes, the [bytes(...)] of line 65.
    - [time()] is a float; the model takes the clock reading as an exact
      rational [now : Q].  The conversion of the timestamp to a float on
      line 96 raises [OverflowError] where Python does; below that bound
      the value and the subtraction are taken as exact.
    - A raised exception is a result [Raise e]; calls made on listeners are
      recorded in a trace that survives an exception.
    - Library functions whose code is not part of the package (HMAC-SHA256,
      [bytes.decode], [json.loads], Flask's [route] and [Flask.__init__])
      are variables of the section.  Flask's [make_response] is modelled
      as far as the type of the body decides its outcome. *)

From Stdlib Require Import ZArith NArith QArith Qabs String Ascii Strings.Byte List Lia Lqa.
From stdpp Require Import gmap strings list fin_maps pretty.

Set Warnings "-register-all".

(** ** Python values and exceptions *)

(** The exceptions that the modelled code and its library calls raise. *)
Inductive exn : Type :=
  | TypeError
  | ValueError
  | KeyError (key : string)
  | AttributeError
  | UnicodeDecodeError
  | UnicodeEncodeError
  | JSONDecodeError
  | OverflowError
  | AssertionError.

(** The outcome of evaluating a Python expression. *)
Inductive result (A : Type) : Type :=
  | Ok (a : A)
  | Raise (e : exn).
Arguments Ok {A} a.
Arguments Raise {A} e.

#[global] Instance result_ret : MRet result := λ A a, Ok a.
#[global] Instance result_bind : MBind result :=
  λ A B k r, match r with Ok a => k a | Raise e => Raise e end.

(** What [json.loads] returns: [None], [bool], [int], [float], [str],
    [list] and [dict] with [str] keys. *)
Inductive json : Type :=
  | JNull
  | JBool (b : bool)
  | JInt (n : Z)
  | JReal (q : Q)
  | JStr (s : string)
  | JArr (l : list json)
  | JObj (d : gmap string json).

Definition bytes : Type := list byte.

(** ** Text *)

Definition ord (c : ascii) : N := N_of_ascii c.

Definition chars (s : string) : list ascii := list_ascii_of_string s.

(** [PyUnicode_IS_ASCII]: every code point is below 128. *)
Definition is_ascii (s : string) : bool :=
  forallb (λ c, (ord c <? 128)%N) (chars s).

Definition byte_of_N (n : N) : byte :=
  match Byte.of_N (n mod 256) with Some b => b | None => x00 end.

(** UTF-8 of one code point below 256: one byte below 128, two bytes
    [110000xx 10xxxxxx] from 128 on. *)
Definition utf8_char (c : ascii) : bytes :=
  let n := ord c in
  if (n <? 128)%N then [byte_of_N n]
  else [byte_of_N (192 + n / 64); byte_of_N (128 + n mod 64)].

(** [str.encode(s)], whose default encoding is UTF-8. *)
Definition str_encode (s : string) : bytes :=
  flat_map utf8_char (chars s).

(** [str(x)] for [x] a [str] or [None]. *)
Definition py_str (x : option string) : string :=
  match x with Some s => s | None => "None" end.

Definition hexdigits : list ascii := chars "0123456789abcdef".

Definition hex_digit (n : N) : ascii := nth (N.to_nat n) hexdigits "0"%char.

Definition hex_byte (b : byte) : string :=
  let n := Byte.to_N b in
  String (hex_digit (n / 16)) (String (hex_digit (n mod 16)) EmptyString).

(** [hexdigest()]: two lowercase hexadecimal digits per byte of the digest. *)
Fixpoint hexdigest (digest : bytes) : string :=
  match digest with
  | [] => ""
  | b :: rest => hex_byte b +:+ hexdigest rest
  end.

(** ** The interpreter *)

Record version_info : Type := {
  major : N;
  minor : N;
  micro : N }.

Record PyEnv : Type := {
  sys_version_info : version_info;
  platform_system : string;
  platform_release : string;
  (** [hasattr(hmac, "compare_digest")] *)
  has_compare_digest : bool;
  (** [sys.get_int_max_str_digits()], 4300 by default where the
      interpreter has the limit; 0 where it has none or it is switched
      off *)
  int_max_str_digits : N;
  (** [__version__], imported from the package's [version] module *)
  package_version : string }.

(** ** [int(x)] on a header value *)

(** The white space that [int] strips, on the code points below 256: tab
    to carriage return, space, U+0085 and U+00A0. *)
Definition is_space (c : ascii) : bool :=
  let n := ord c in
  ((9 <=? n) && (n <=? 13) || (n =? 32) || (n =? 133) || (n =? 160))%N.

Fixpoint lstrip (l : list ascii) : list ascii :=
  match l with
  | c :: rest => if is_space c then lstrip rest else l
  | [] => []
  end.

Definition strip (l : list ascii) : list ascii := rev (lstrip (rev (lstrip l))).

Definition digit_val (c : ascii) : option Z :=
  let n := ord c in
  if ((48 <=? n) && (n <=? 57))%N then Some (Z.of_N (n - 48)) else None.

(** Underscores between digits are accepted from Python 3.6 on. *)
Definition underscores_allowed (env : PyEnv) : bool :=
  let v := sys_version_info env in
  ((3 <? major v) || (major v =? 3) && (6 <=? minor v))%N.

(** The digits after the first one: each is a digit or, where
    underscores are allowed, an underscore followed by a digit. *)
Fixpoint more_digits (underscores : bool) (acc : Z) (l : list ascii) : option Z :=
  match l with
  | [] => Some acc
  | c :: rest =>
      if underscores && Ascii.eqb c "_" then
        match rest with
        | d :: rest' =>
            match digit_val d with
            | Some v => more_digits underscores (10 * acc + v) rest'
            | None => None
            end
        | [] => None
        end
      else
        match digit_val c with
        | Some v => more_digits underscores (10 * acc + v) rest
        | None => None
        end
  end.

Definition digits (underscores : bool) (l : list ascii) : option Z :=
  match l with
  | c :: rest =>
      match digit_val c with
      | Some v => more_digits underscores v rest
      | None => None
      end
  | [] => None
  end.

Definition signed_digits (underscores : bool) (l : list ascii) : option Z :=
  match l with
  | c :: rest =>
      if Ascii.eqb c "-" then Z.opp <$> digits underscores rest
      else if Ascii.eqb c "+" then digits underscores rest
      else digits underscores l
  | [] => None
  end.

(** The number of digits of a numeral; sign, white space and underscores
    do not count, leading zeros do. *)
Definition digit_count (l : list ascii) : N :=
  N.of_nat (length (List.filter (λ c, bool_decide (is_Some (digit_val c))) l)).

(** A numeral with more digits than [int_max_str_digits] is refused. *)
Definition over_digit_limit (env : PyEnv) (l : list ascii) : bool :=
  let limit := int_max_str_digits env in
  (negb (limit =? 0) && (limit <? digit_count l))%N.

(** [int(x)] for [x] a [str] or [None]: [None] is a [TypeError]; a string
    is stripped of white space and read as an optionally signed decimal
    numeral; anything else, and a numeral over the digit limit, is a
    [ValueError]. *)
Definition py_int (env : PyEnv) (x : option string) : result Z :=
  match x with
  | None => Raise TypeError
  | Some s =>
      let text := strip (chars s) in
      match signed_digits (underscores_allowed env) text with
      | Some n => if over_digit_limit env text then Raise ValueError else Ok n
      | None => Raise ValueError
      end
  end.

(** The first integer that has no float: it rounds to 2^1024. *)
Definition float_overflow_bound : Z := 2 ^ 1024 - 2 ^ 970.

(** The conversion of an [int] to a [float], as [float - int] performs
    it: [OverflowError] from [float_overflow_bound] on, in absolute value;
    below it the value is kept exact. *)
Definition float_of_int (n : Z) : result Q :=
  if (Z.abs n <? float_overflow_bound)%Z then Ok (inject_Z n) else Raise OverflowError.

(** ** Access to parsed JSON, as Python evaluates it *)

(** [key in container] for a [str] key: membership of the key for a
    [dict], of the element for a [list], of the substring for a [str];
    the other values are not iterable. *)
Definition py_contains (container : json) (key : string) : result bool :=
  match container with
  | JObj d => Ok (bool_decide (is_Some (d !! key)))
  | JArr l =>
      Ok (existsb (λ x, match x with JStr s => String.eqb s key | _ => false end) l)
  | JStr s => Ok (match index 0 key s with Some _ => true | None => false end)
  | _ => Raise TypeError
  end.

(** [container.get(key)]: only a [dict] has the method. *)
Definition py_get (container : json) (key : string) : result json :=
  match container with
  | JObj d => Ok (default JNull (d !! key))
  | _ => Raise AttributeError
  end.

(** [container[key]] for a [str] key: a [dict] raises [KeyError] on a
    missing key; every other value rejects the subscript. *)
Definition py_getitem (container : json) (key : string) : result json :=
  match container with
  | JObj d =>
      match d !! key with
      | Some v => Ok v
      | None => Raise (KeyError key)
      end
  | _ => Raise TypeError
  end.

(** ** The package constants *)

(** [__name__] of the module [slackeventsapi/server.py]. *)
Definition module_name : string := "slackeventsapi.server".

(** [s.split('.')[0]]: the text before the first dot. *)
Fixpoint split_dot_head (s : string) : string :=
  match s with
  | EmptyString => EmptyString
  | String c rest => if Ascii.eqb c "." then EmptyString else String c (split_dot_head rest)
  end.

(** [sep.join(l)] *)
Fixpoint str_join (sep : string) (l : list string) : string :=
  match l with
  | [] => ""
  | [x] => x
  | x :: rest => x +:+ sep +:+ str_join sep rest
  end.

(** ** Listeners and the emitter *)

Definition handler : Type := nat.

(** [SlackEventAdapterException]: an exception object with its message. *)
Record SlackException : Type := { message : string }.

Definition SlackEventAdapterException (msg : option string) : SlackException :=
  match msg with
  | None => {| message := "An error occurred in the SlackEventsApiAdapter library" |}
  | Some m => {| message := m |}
  end.

(** What a listener is called with: a parsed payload or an exception. *)
Inductive pyval : Type :=
  | VJson (j : json)
  | VExc (e : SlackException).

(** One call of a listener. *)
Record Call : Type := { callee : handler; argument : pyval }.

(** Modelled from the spec: the emitter object handed to the constructor,
    of which the source has only the calls [emitter.emit(name, value)].
    Section 3 and 4.4 of the specification: a mapping from discriminator
    string to an ordered list of handler references; dispatch invokes all
    handlers registered for that discriminator, in registration order, and
    is a no-op when none is registered.  Handlers are taken to return. *)
Record Emitter : Type := { listeners : gmap string (list handler) }.

Definition handlers_of (em : Emitter) (name : json) : list handler :=
  match name with
  | JStr s => default [] (listeners em !! s)
  | _ => []
  end.

Definition calls (em : Emitter) (name : json) (value : pyval) : list Call :=
  (λ h, {| callee := h; argument := value |}) <$> handlers_of em name.

(** A computation that may call listeners and may raise. *)
Definition M (A : Type) : Type := list Call → result A * list Call.

#[global] Instance M_ret : MRet M := λ A a tr, (Ok a, tr).
#[global] Instance M_bind : MBind M :=
  λ A B k m tr,
    match m tr with
    | (Ok a, tr') => k a tr'
    | (Raise e, tr') => (Raise e, tr')
    end.

Definition lift {A : Type} (r : result A) : M A := λ tr, (r, tr).

Definition emit (em : Emitter) (name : json) (value : pyval) : M unit :=
  λ tr, (Ok (), tr ++ calls em name value).

(** ** Requests and responses *)

Record Request : Type := {
  method : string;
  headers : gmap string string;
  (** the raw body, [request.get_data()] and [request.data] *)
  data : bytes;
  form : gmap string string }.

Record Response : Type := {
  body : json;
  status : Z;
  response_headers : gmap string string }.

(** [make_response(body, status, headers)] as Flask 3 has it: a [str], a
    [list] or a [dict] becomes the body of the response, kept here as the
    value that was passed; [None], a [bool], an [int] and a [float] are a
    [TypeError]. *)
Definition make_response (b : json) (st : Z) (hs : gmap string string) : result Response :=
  match b with
  | JStr _ | JArr _ | JObj _ =>
      Ok {| body := b; status := st; response_headers := hs |}
  | JNull | JBool _ | JInt _ | JReal _ => Raise TypeError
  end.

(** [response.headers[k] = v] *)
Definition set_header (r : Response) (k v : string) : Response :=
  {| body := body r; status := status r;
     response_headers := <[k := v]> (response_headers r) |}.

(** ** The Flask application object *)

Inductive view : Type := view_event | view_interactive | view_options.

(** A rule of a Flask application: the path, the methods and the name of
    the endpoint. *)
Record Rule : Type := { rule : string; methods : list string; endpoint : string }.

(** The state of a Flask application that the samples look at.  What
    [Flask.__init__] and [route] do to it is Flask's, and is a variable of
    the section below. *)
Record Flask : Type := { import_name : string; url_map : list Rule }.

(** The [server] argument of the constructor: [None], a Flask instance,
    or any other object, which has a truth value. *)
Inductive pyobj : Type :=
  | PyNone
  | PyFlask (app : Flask)
  | PyOther (truth : bool).

Definition truthy (o : pyobj) : bool :=
  match o with
  | PyNone => false
  | PyFlask _ => true
  | PyOther b => b
  end.

(** Truth value of an endpoint path: [None] and [""] are false. *)
Definition truthy_path (p : option string) : bool :=
  match p with
  | Some s => negb (String.eqb s "")
  | None => false
  end.

(** ** [hmac.compare_digest] and [bytes] *)

(** [hmac.compare_digest(a, b)] with [a] a [str]: two [str] must both be
    ASCII, and [None] is not accepted. *)
Definition compare_digest (a : string) (b : option string) : result bool :=
  match b with
  | None => Raise TypeError
  | Some s => if is_ascii a && is_ascii s then Ok (String.eqb a s) else Raise TypeError
  end.

(** [bytes(x)] on Python 2, where [bytes] is [str]: text is encoded as
    ASCII and [None] becomes its name. *)
Definition py2_bytes (x : option string) : result string :=
  match x with
  | None => Ok "None"
  | Some s => if is_ascii s then Ok s else Raise UnicodeEncodeError
  end.

(** [hmac.compare_digest] on two byte strings. *)
Definition compare_digest_bytes (a b : string) : result bool := Ok (String.eqb a b).

(** [len(x)] for [x] a [str] or [None]. *)
Definition py_len (x : option string) : result nat :=
  match x with
  | None => Raise TypeError
  | Some s => Ok (String.length s)
  end.

(** [zip(a, b)] over the characters of a [str] and of a [str] or [None]. *)
Definition py_zip (a : string) (b : option string) : list (ascii * ascii) :=
  zip (chars a) (chars (default "" b)).

(** ** The class [SlackServer] *)

(** The attributes that [__init__] assigns on [self]. *)
Record SlackServer : Type := {
  signing_secret : string;
  emitter : Emitter;
  events_endpoint : option string;
  interactive_endpoint : option string;
  options_endpoint : option string;
  package_info : string }.

(** The outcome of [base_checks]: a response object, or [True]. *)
Inductive checked : Type :=
  | BcResponse (r : Response)
  | BcTrue.

(** The objects after the constructor has run: [self], the Flask state of
    [self] when [Flask.__init__] was called on it, and the [server]
    argument with the routes it may have received. *)
Record Built : Type := {
  instance : SlackServer;
  own_app : option Flask;
  server_after : pyobj }.

(** [isinstance(server, Flask)] *)
Definition as_Flask (o : pyobj) : option Flask :=
  match o with
  | PyFlask app => Some app
  | _ => None
  end.

(** The list returned by the options view (line 164). *)
Definition option_object (label : string) : json :=
  JObj {[ "text" := JObj {[ "type" := JStr "plain_text"; "text" := JStr label ]};
          "value" := JStr label ]}.

Definition options_list : list json :=
  [ option_object "1:Many Internal"; option_object "1:many Argentina" ].

(** The shape of an option object in the words of the specification:
    [{text: {type: "plain_text", text: string}, value: string}]. *)
Definition is_option_object (j : json) : Prop :=
  ∃ t v : string,
    j = JObj {[ "text" := JObj {[ "type" := JStr "plain_text"; "text" := JStr t ]};
                "value" := JStr v ]}.

Section Server.

(** [hmac.new(key, msg, hashlib.sha256).digest()] *)
Variable hmac_sha256 : bytes → bytes → bytes.
(** [b.decode('utf-8')] *)
Variable decode_utf8 : bytes → result string.
(** [json.loads(s)] *)
Variable json_loads : string → result json.
(** [Flask.__init__(self, name)]: the state of a new application. *)
Variable Flask_init : string → Flask.
(** [@server.route(path, methods=ms)] applied to a view function: the
    outcome, and the state of the server after the call (Flask may have
    changed it before it raises). *)
Variable route : Flask → string → list string → view → result unit * Flask.

Variable env : PyEnv.

(** [get_package_info]: the three values of the dictionary, in the order
    of insertion, joined by spaces. *)
Definition get_package_info : string :=
  let client_name := split_dot_head module_name in
  let client_version := package_version env in
  let v := sys_version_info env in
  let package_info :=
    [ ("client", client_name +:+ "/" +:+ client_version);
      ("python", "Python/" +:+ pretty (major v) +:+ "." +:+ pretty (minor v)
                   +:+ "." +:+ pretty (micro v));
      ("system", platform_system env +:+ "/" +:+ platform_release env) ] in
  let ua_string := snd <$> package_info in
  str_join " " ua_string.

(** The request hash of lines 58 to 62 and 70 to 74. *)
Definition request_hash (secret : string) (timestamp : option string) (raw : bytes) : string :=
  let req := str_encode ("v0:" +:+ py_str timestamp +:+ ":") ++ raw in
  "v0=" +:+ hexdigest (hmac_sha256 (str_encode secret) req).

(** [verify_signature].  In the explicit comparison the hash and the
    header are text, so the test of line 79 is false and the loop of
    line 83 runs. *)
Definition verify_signature (self : SlackServer) (req : Request)
    (timestamp signature : option string) : result bool :=
  if has_compare_digest env then
    let request_hash := request_hash (signing_secret self) timestamp (data req) in
    if (major (sys_version_info env) =? 2)%N then
      a ← py2_bytes (Some request_hash);
      b ← py2_bytes signature;
      compare_digest_bytes a b
    else
      compare_digest request_hash signature
  else
    let request_hash := request_hash (signing_secret self) timestamp (data req) in
    n ← py_len signature;
    if negb (String.length request_hash =? n)%nat then Ok false
    else
      let result :=
        fold_left (λ result xy, N.lor result (N.lxor (ord xy.1) (ord xy.2)))
                  (py_zip request_hash signature) 0%N in
      Ok (result =? 0)%N.

(** The test of line 96: [abs(time() - int(req_timestamp)) > 60 * 5]. *)
Definition out_of_range (now : Q) (req_timestamp : option string) : result bool :=
  n ← py_int env req_timestamp;
  x ← float_of_int n;
  Ok (negb (Qle_bool (Qabs (now - x)) (inject_Z (60 * 5)))).

Definition base_checks (self : SlackServer) (now : Q) (req : Request) : M checked :=
  if String.eqb (method req) "GET" then
    r ← lift (make_response (JStr "These are not the slackbots you're looking for.") 404 ∅);
    mret (BcResponse r)
  else
    let req_timestamp := headers req !! "X-Slack-Request-Timestamp" in
    stale ← lift (out_of_range now req_timestamp);
    if stale : bool then
      let slack_exception := SlackEventAdapterException (Some "Invalid request timestamp") in
      _ ← emit (emitter self) (JStr "error") (VExc slack_exception);
      r ← lift (make_response (JStr "") 403 ∅);
      mret (BcResponse r)
    else
      let req_signature := headers req !! "X-Slack-Signature" in
      verified ← lift (verify_signature self req req_timestamp req_signature);
      if negb verified then
        let slack_exception := SlackEventAdapterException (Some "Invalid request signature") in
        _ ← emit (emitter self) (JStr "error") (VExc slack_exception);
        r ← lift (make_response (JStr "") 403 ∅);
        mret (BcResponse r)
      else mret BcTrue.

(** The view functions return a response, or [None] when the body of
    the function ends without a [return]. *)
Definition event (self : SlackServer) (now : Q) (req : Request) : M (option Response) :=
  bc ← base_checks self now req;
  match bc with
  | BcResponse r => mret (Some r)
  | BcTrue =>
      text ← lift (decode_utf8 (data req));
      event_data ← lift (json_loads text);
      has_challenge ← lift (py_contains event_data "challenge");
      if has_challenge : bool then
        challenge ← lift (py_get event_data "challenge");
        r ← lift (make_response challenge 200 {[ "content_type" := "application/json" ]});
        mret (Some r)
      else
        has_event ← lift (py_contains event_data "event");
        if has_event : bool then
          inner ← lift (py_getitem event_data "event");
          event_type ← lift (py_getitem inner "type");
          _ ← emit (emitter self) event_type (VJson event_data);
          response ← lift (make_response (JStr "") 200 ∅);
          mret (Some (set_header response "X-Slack-Powered-By" (package_info self)))
        else mret None
  end.

Definition interactive (self : SlackServer) (now : Q) (req : Request) : M (option Response) :=
  bc ← base_checks self now req;
  match bc with
  | BcResponse r => mret (Some r)
  | BcTrue =>
      match form req !! "payload" with
      | Some field =>
          payload ← lift (json_loads field);
          payload_type ← lift (py_getitem payload "type");
          _ ← emit (emitter self) payload_type (VJson payload);
          response ← lift (make_response (JStr "") 200 ∅);
          mret (Some (set_header response "X-Slack-Powered-By" (package_info self)))
      | None =>
          response ← lift (make_response (JStr "") 200 ∅);
          mret (Some response)
      end
  end.

Definition options (self : SlackServer) (now : Q) (req : Request) : M (option Response) :=
  bc ← base_checks self now req;
  match bc with
  | BcResponse r => mret (Some r)
  | BcTrue =>
      match form req !! "payload" with
      | Some field =>
          payload ← lift (json_loads field);
          payload_type ← lift (py_getitem payload "type");
          _ ← emit (emitter self) payload_type (VJson payload);
          let r := options_list in
          response ←
            lift (make_response (JArr r) 200 {[ "content_type" := "application/json" ]});
          mret (Some (set_header response "X-Slack-Powered-By" (package_info self)))
      | None =>
          response ← lift (make_response (JStr "") 200 ∅);
          mret (Some response)
      end
  end.

(** The function that a bound rule runs. *)
Definition run_view (f : view) : SlackServer → Q → Request → M (option Response) :=
  match f with
  | view_event => event
  | view_interactive => interactive
  | view_options => options
  end.

(** One [if self.<endpoint>:] block of [bind_route]: the view is routed
    when its endpoint is true. *)
Definition bind_one (endpoint : option string) (f : view) (server : Flask)
    : result unit * Flask :=
  if truthy_path endpoint
  then route server (default "" endpoint) ["GET"; "POST"] f
  else (Ok (), server).

(** [bind_route]: the three blocks in turn; an exception of [route] ends
    the method, with the server as that call left it. *)
Definition bind_route (self : SlackServer) (server : Flask) : result unit * Flask :=
  match bind_one (events_endpoint self) view_event server with
  | (Ok _, server) =>
      match bind_one (interactive_endpoint self) view_interactive server with
      | (Ok _, server) => bind_one (options_endpoint self) view_options server
      | (Raise e, server) => (Raise e, server)
      end
  | (Raise e, server) => (Raise e, server)
  end.

(** [SlackServer.__init__] *)
Definition SlackServer_init (signing_secret : string)
    (events_endpoint interactive_endpoint options_endpoint : option string)
    (emitter : Emitter) (server : pyobj) : result unit * Built :=
  let self :=
    {| signing_secret := signing_secret;
       emitter := emitter;
       events_endpoint := events_endpoint;
       interactive_endpoint := interactive_endpoint;
       options_endpoint := options_endpoint;
       package_info := get_package_info |} in
  if truthy server then
    match as_Flask server with
    | Some app =>
        let (outcome, app) := bind_route self app in
        (outcome, {| instance := self; own_app := None; server_after := PyFlask app |})
    | None =>
        (Raise TypeError, {| instance := self; own_app := None; server_after := server |})
    end
  else
    let (outcome, app) := bind_route self (Flask_init module_name) in
    (outcome, {| instance := self; own_app := Some app; server_after := server |}).

End Server.

(** ** Sample data

    One deployment and a handful of requests, used to run the definitions.
    The library functions are given by their values on the inputs that
    occur in the samples. *)

Definition sample_env : PyEnv :=
  {| sys_version_info := {| major := 3; minor := 11; micro := 2 |};
     platform_system := "Linux";
     platform_release := "6.1.0";
     has_compare_digest := true;
     int_max_str_digits := 4300;
     package_version := "2.1.0" |}.

(** Python 2.7.6, the interpreter of the comment on line 54: [hmac] has
    no [compare_digest]. *)
Definition sample_env_old : PyEnv :=
  {| sys_version_info := {| major := 2; minor := 7; micro := 6 |};
     platform_system := "Linux";
     platform_release := "6.1.0";
     has_compare_digest := false;
     int_max_str_digits := 0;
     package_version := "2.1.0" |}.

Definition dq : string := String "034"%char EmptyString.

Definition quoted (s : string) : string := dq +:+ s +:+ dq.

Definition sample_secret : string := "8f742231b10e8888abcd99yyyzzz85a5".

Definition sample_timestamp : string := "1531420618".

(** [{"challenge": "abc123"}] *)
Definition text_challenge : string :=
  "{" +:+ quoted "challenge" +:+ ": " +:+ quoted "abc123" +:+ "}".

(** [{"event": {"type": "message", "text": "hi"}}] *)
Definition text_message : string :=
  "{" +:+ quoted "event" +:+ ": {" +:+ quoted "type" +:+ ": " +:+ quoted "message"
      +:+ ", " +:+ quoted "text" +:+ ": " +:+ quoted "hi" +:+ "}}".

(** [{"challenge": "x", "event": {}}] *)
Definition text_both : string :=
  "{" +:+ quoted "challenge" +:+ ": " +:+ quoted "x" +:+ ", " +:+ quoted "event" +:+ ": {}}".

(** [{"event": {}}] *)
Definition text_untyped : string := "{" +:+ quoted "event" +:+ ": {}}".

(** [{"type":"block_actions"}] *)
Definition text_block_actions : string :=
  "{" +:+ quoted "type" +:+ ":" +:+ quoted "block_actions" +:+ "}".

(** The form bodies that carry [text_block_actions], [{}] and nothing. *)
Definition body_block_actions : string := "payload=%7B%22type%22%3A%22block_actions%22%7D".
Definition body_empty_object : string := "payload=%7B%7D".

Definition json_challenge : json := JObj {[ "challenge" := JStr "abc123" ]}.

Definition json_message : json :=
  JObj {[ "event" := JObj {[ "type" := JStr "message"; "text" := JStr "hi" ]} ]}.

Definition json_both : json := JObj {[ "challenge" := JStr "x"; "event" := JObj ∅ ]}.

Definition json_untyped : json := JObj {[ "event" := JObj ∅ ]}.

Definition json_block_actions : json := JObj {[ "type" := JStr "block_actions" ]}.

(** [json.loads] on the sample texts. *)
Definition sample_json_loads (s : string) : result json :=
  if String.eqb s text_challenge then Ok json_challenge
  else if String.eqb s text_message then Ok json_message
  else if String.eqb s text_both then Ok json_both
  else if String.eqb s text_untyped then Ok json_untyped
  else if String.eqb s text_block_actions then Ok json_block_actions
  else if String.eqb s "{}" then Ok (JObj ∅)
  else Raise JSONDecodeError.

(** [bytes.decode('utf-8')] on the sample bodies, which are ASCII. *)
Definition sample_decode_utf8 (b : bytes) : result string :=
  if forallb (λ x, (Byte.to_N x <? 128)%N) b then Ok (string_of_list_byte b)
  else Raise UnicodeDecodeError.

Definition bytes_eqb (a b : bytes) : bool :=
  String.eqb (string_of_list_byte a) (string_of_list_byte b).

(** HMAC-SHA256 under [sample_secret] of ["v0:1531420618:"] followed by
    each sample body. *)
Definition sample_digests : list (string * bytes) :=
  [ (text_challenge,
     [xef; xbf; xa3; xc5; x71; xa5; xab; x2c; x23; xf2; x21; x89; x7b; xf0; x95; x31;
      xfb; x3e; x16; x74; x81; x99; x74; x63; x05; x26; xc5; xc8; x2d; x01; x71; x02]);
    (text_message,
     [x58; x49; xf9; x61; x7f; x89; x22; xae; xcb; x6e; x0f; xfc; xd8; x79; x0d; xe3;
      x83; xc3; xaf; xed; x85; xce; xea; xde; x6b; x1c; x68; x5c; xad; x48; xd1; xd0]);
    (text_both,
     [x54; xb7; xb7; x74; x98; xc4; xf9; x65; x1d; x89; xa5; x55; xb5; x71; x32; xe1;
      xf1; x03; xc3; x89; x91; x4e; x0b; xab; x02; x0f; xff; xc3; xdb; x55; xb4; xd6]);
    (text_untyped,
     [x09; xd6; xce; x53; x34; x74; xf8; x0a; x4a; xda; xe1; x1f; x52; x57; xd6; x75;
      x71; xbd; x01; x40; x11; x92; x97; x4c; xf1; x43; xeb; xab; x9f; x38; x18; x4f]);
    (body_block_actions,
     [x9d; xff; xc2; x5b; x49; xa4; xa7; xfc; x2e; x15; xc9; xc9; x45; x0b; xf8; xaf;
      x09; xeb; x50; x1f; xce; xf9; x03; x9e; xae; xa3; xde; xb5; x8a; xf0; xc8; x2c]);
    (body_empty_object,
     [x90; x02; x08; x73; xe6; xbb; xe3; xb3; x51; x5f; xec; x3b; x8f; xc0; x84; x53;
      xf3; x0f; x6b; x3f; xcc; xd4; xd8; xa4; x7b; x75; x7f; x01; x6b; x73; x34; xae]);
    ("",
     [x55; xf4; x1e; xc7; x32; x31; x01; x02; x89; xb5; x4e; x66; x91; x49; xea; x02;
      x1f; xcc; xab; x11; xb5; x52; x43; x55; x52; x35; x33; xce; x93; x0c; xb7; x39]) ].

Fixpoint digest_for (msg : bytes) (table : list (string * bytes)) : bytes :=
  match table with
  | [] => repeat x00 32
  | (b, d) :: rest =>
      if bytes_eqb msg (list_byte_of_string ("v0:" +:+ sample_timestamp +:+ ":" +:+ b))
      then d else digest_for msg rest
  end.

Definition sample_hmac (key msg : bytes) : bytes :=
  if bytes_eqb key (list_byte_of_string sample_secret)
  then digest_for msg sample_digests
  else repeat x00 32.

Definition sample_emitter : Emitter :=
  {| listeners := {[ "error" := [0]; "message" := [1; 2]; "block_actions" := [3];
                     "reaction_added" := [4] ]} |}.

Definition sample_self : SlackServer :=
  {| signing_secret := sample_secret;
     emitter := sample_emitter;
     events_endpoint := Some "/slack/events";
     interactive_endpoint := Some "/slack/interactive";
     options_endpoint := Some "/slack/options";
     package_info := get_package_info sample_env |}.

(** The signature that Slack sends with [sample_timestamp] and [body]. *)
Definition sample_signature (body : string) : string :=
  request_hash sample_hmac sample_secret (Some sample_timestamp) (list_byte_of_string body).

Definition signed_request (body : string) (fields : gmap string string) : Request :=
  {| method := "POST";
     headers := {[ "X-Slack-Request-Timestamp" := sample_timestamp;
                   "X-Slack-Signature" := sample_signature body ]};
     data := list_byte_of_string body;
     form := fields |}.

(** Two seconds after [sample_timestamp]. *)
Definition sample_now : Q := inject_Z 1531420620.

(** A request with the given headers and an empty body. *)
Definition bare_request (hs : gmap string string) : Request :=
  {| method := "POST"; headers := hs; data := []; form := ∅ |}.

(** A header value with a character outside ASCII: [v0=] and U+00E9. *)
Definition latin1_signature : string := "v0=" +:+ String "233"%char EmptyString.

(** The name of a view function, which Flask takes as endpoint name. *)
Definition view_name (f : view) : string :=
  match f with
  | view_event => "event"
  | view_interactive => "interactive"
  | view_options => "options"
  end.

(** The methods that Flask stores for a rule: HEAD comes with GET, and
    OPTIONS is added. *)
Definition stored_methods (ms : list string) : list string :=
  ms ++ (if existsb (String.eqb "GET") ms then ["HEAD"] else []) ++ ["OPTIONS"].

(** [Flask.__init__] on the samples: a new application has the rule of
    its static files. *)
Definition sample_Flask_init (name : string) : Flask :=
  {| import_name := name;
     url_map := [ {| rule := "/static/<path:filename>";
                     methods := stored_methods ["GET"];
                     endpoint := "static" |} ] |}.

(** [route] on the samples: a path without a leading slash is a
    [ValueError]; otherwise the rule is added under the name of the view
    function, and an endpoint name that the application has already is an
    [AssertionError]. *)
Definition sample_route (server : Flask) (path : string) (ms : list string) (f : view)
    : result unit * Flask :=
  if negb (String.prefix "/" path) then (Raise ValueError, server)
  else
    let added :=
      {| import_name := import_name server;
         url_map := url_map server
                    ++ [ {| rule := path; methods := stored_methods ms;
                            endpoint := view_name f |} ] |} in
    if existsb (λ r, String.eqb (endpoint r) (view_name f)) (url_map server)
    then (Raise AssertionError, added)
    else (Ok (), added).

(** An application with one rule of its own. *)
Definition sample_app : Flask :=
  {| import_name := "app";
     url_map := [ {| rule := "/health"; methods := stored_methods ["GET"];
                     endpoint := "health" |} ] |}.

(** An application that already has an endpoint named [event]. *)
Definition taken_app : Flask :=
  {| import_name := "app";
     url_map := [ {| rule := "/event"; methods := stored_methods ["GET"];
                     endpoint := "event" |} ] |}.

(** Sample requests. *)
Definition request_challenge : Request := signed_request text_challenge ∅.
Definition request_message : Request := signed_request text_message ∅.
Definition request_both : Request := signed_request text_both ∅.
Definition request_untyped : Request := signed_request text_untyped ∅.
Definition request_block_actions : Request :=
  signed_request body_block_actions {[ "payload" := text_block_actions ]}.
Definition request_empty_object : Request :=
  signed_request body_empty_object {[ "payload" := "{}" ]}.
Definition request_no_payload : Request := signed_request "" ∅.
Definition request_no_timestamp : Request :=
  bare_request {[ "X-Slack-Signature" := sample_signature "" ]}.
Definition request_word_timestamp : Request :=
  bare_request {[ "X-Slack-Request-Timestamp" := "soon";
                  "X-Slack-Signature" := sample_signature "" ]}.
Definition request_no_signature : Request :=
  bare_request {[ "X-Slack-Request-Timestamp" := sample_timestamp ]}.
Definition request_latin1_signature : Request :=
  bare_request {[ "X-Slack-Request-Timestamp" := sample_timestamp;
                  "X-Slack-Signature" := latin1_signature ]}.
Definition request_wrong_signature : Request :=
  bare_request {[ "X-Slack-Request-Timestamp" := sample_timestamp;
                  "X-Slack-Signature" := "v0=00" ]}.

(** Clock readings 300 and 301 seconds after [sample_timestamp]. *)
Definition boundary_now : Q := inject_Z (1531420618 + 300).
Definition stale_now : Q := inject_Z (1531420618 + 301).

(** The sample deployment running a view. *)
Definition sample_view (f : view) (now : Q) (req : Request) : result (option Response) * list Call :=
  run_view sample_hmac sample_decode_utf8 sample_json_loads sample_env f sample_self now req [].

Definition sample_checks (now : Q) (req : Request) : result checked * list Call :=
  base_checks sample_hmac sample_env sample_self now req [].

Definition sample_error_calls (msg : string) : list Call :=
  [ {| callee := 0; argument := VExc {| message := msg |} |} ].

(** ** Further names and samples *)

(** The endpoint attribute that [bind_route] reads for the rule of a view. *)
Definition endpoint_of (self : SlackServer) (f : view) : option string :=
  match f with
  | view_event => events_endpoint self
  | view_interactive => interactive_endpoint self
  | view_options => options_endpoint self
  end.

(** The endpoints that are true, with their views, in the order of the
    three blocks of [bind_route]. *)
Definition enabled_routes (self : SlackServer) : list (string * view) :=
  flat_map
    (λ f, match endpoint_of self f with
          | Some p => if String.eqb p "" then [] else [(p, f)]
          | None => []
          end)
    [view_event; view_interactive; view_options].

(** Routing a list of views in turn, up to the first exception. *)
Fixpoint route_each
    (route : Flask → string → list string → view → result unit * Flask)
    (rs : list (string * view)) (server : Flask) : result unit * Flask :=
  match rs with
  | [] => (Ok (), server)
  | (p, f) :: rest =>
      match route server p ["GET"; "POST"] f with
      | (Ok _, server) => route_each route rest server
      | (Raise e, server) => (Raise e, server)
      end
  end.

(** The answers of [base_checks]: to a GET request (line 91) and to a
    failed check (lines 99 and 107). *)
Definition not_found : Response :=
  {| body := JStr "These are not the slackbots you're looking for.";
     status := 404; response_headers := ∅ |}.

Definition forbidden : Response :=
  {| body := JStr ""; status := 403; response_headers := ∅ |}.

(** The bodies [make_response] accepts: a [str], a [list] or a [dict]. *)
Definition is_response_body (j : json) : bool :=
  match j with
  | JStr _ | JArr _ | JObj _ => true
  | _ => false
  end.

(** The texts of an empty object, of a list that holds the word
    challenge, and of an object that is cut off after its first key. *)
Definition text_empty_object : string := "{}".
Definition text_challenge_list : string := "[" +:+ quoted "challenge" +:+ "]".
Definition text_broken : string := "{" +:+ dq +:+ "broken".

(** An events body whose challenge is the number 5. *)
Definition text_numeric_challenge : string := "{" +:+ quoted "challenge" +:+ ": 5}".

(** A form body whose [payload] field is the text [oops]. *)
Definition body_broken_payload : string := "payload=oops".

(** A form body whose [payload] field is [text_challenge_list]. *)
Definition body_list_payload : string := "payload=%5B%22challenge%22%5D".

(** HMAC-SHA256 under [sample_secret] for these bodies. *)
Definition more_digests : list (string * bytes) :=
  [ (text_empty_object,
     [x8f; xa0; xe0; x09; xd1; xac; x24; xfd; x3d; xf1; x70; x6b; x46; xc6; xd9; x72;
      xab; xd5; xf7; x0b; x76; x21; x37; xc3; xbb; x5b; x42; x08; xc8; x4c; x96; x07]);
    (text_challenge_list,
     [xdd; x94; x16; xd5; xb9; xba; x31; xd7; x59; x0c; x92; xd2; x82; x71; x10; xac;
      x01; x59; x87; x85; xfe; x60; x54; xbc; xfa; x7a; xe4; x1b; x18; x28; x9f; x80]);
    (text_broken,
     [x42; xb7; xfe; xd1; x4a; x6c; x07; xe7; xba; xbb; x81; x56; x17; x54; x66; x1d;
      x4a; x90; xc7; x4c; x85; xf9; x92; xa8; x09; x6e; xf1; x4d; xa1; x2c; x75; xa1]);
    (body_broken_payload,
     [x27; xf9; xd5; xe0; xa1; x7a; xd1; x2d; xa9; xb5; xb0; x47; x7d; x99; xc9; xe0;
      x9c; x3b; xe8; xf0; x88; xda; x4c; xfa; x42; x9c; xc9; xcc; x0d; xb9; x50; x75]);
    (body_list_payload,
     [xdf; x2b; xab; xe0; xbf; x65; x87; x04; x24; xd2; xff; x63; x73; x09; xce; xcb;
      xff; x93; xf1; x5f; xff; x23; xe3; x76; x07; x50; xca; xf6; xd4; x04; x07; x1d]);
    (text_numeric_challenge,
     [xc5; x5a; xf6; x25; x38; xf6; xc6; x82; xa4; x5c; x74; x10; x95; xb6; xc9; x8b;
      x1c; xcb; xfa; x4c; x66; x69; xa2; x90; x84; xd7; xd2; x72; x08; x92; x71; xc2]) ].

Definition wide_hmac (key msg : bytes) : bytes :=
  if bytes_eqb key (list_byte_of_string sample_secret)
  then digest_for msg (more_digests ++ sample_digests)
  else repeat x00 32.

(** [json.loads] on the sample texts and on the three texts above. *)
Definition wide_json_loads (s : string) : result json :=
  if String.eqb s text_challenge_list then Ok (JArr [JStr "challenge"])
  else if String.eqb s text_numeric_challenge then Ok (JObj {[ "challenge" := JInt 5 ]})
  else if String.eqb s text_broken then Raise JSONDecodeError
  else if String.eqb s "oops" then Raise JSONDecodeError
  else sample_json_loads s.

Definition wide_request (body : string) (fields : gmap string string) : Request :=
  {| method := "POST";
     headers :=
       {[ "X-Slack-Request-Timestamp" := sample_timestamp;
          "X-Slack-Signature" :=
            request_hash wide_hmac sample_secret (Some sample_timestamp)
              (list_byte_of_string body) ]};
     data := list_byte_of_string body;
     form := fields |}.

Definition request_get : Request :=
  {| method := "GET"; headers := ∅; data := list_byte_of_string text_message; form := ∅ |}.
Definition request_empty_body_object : Request := wide_request text_empty_object ∅.
Definition request_challenge_list : Request := wide_request text_challenge_list ∅.
Definition request_broken : Request := wide_request text_broken ∅.
Definition request_broken_payload : Request :=
  wide_request body_broken_payload {[ "payload" := "oops" ]}.
Definition request_list_payload : Request :=
  wide_request body_list_payload {[ "payload" := text_challenge_list ]}.
Definition request_numeric_challenge : Request := wide_request text_numeric_challenge ∅.

(** A timestamp of 310 digits, the number 10^309, with the signature that
    Slack would send for it is beside the point: line 96 comes first. *)
Definition huge_timestamp : string :=
  String "1"%char (string_of_list_ascii (repeat "0"%char 309)).
Definition request_huge_timestamp : Request :=
  bare_request {[ "X-Slack-Request-Timestamp" := huge_timestamp;
                  "X-Slack-Signature" := "v0=00" ]}.

Definition wide_view (f : view) (now : Q) (req : Request) : result (option Response) * list Call :=
  run_view wide_hmac sample_decode_utf8 wide_json_loads sample_env f sample_self now req [].


(** A deployment with the interactive endpoint switched off. *)
Definition partial_self : SlackServer :=
  {| signing_secret := sample_secret;
     emitter := sample_emitter;
     events_endpoint := Some "/slack/events";
     interactive_endpoint := Some "";
     options_endpoint := None;
     package_info := get_package_info sample_env |}.

(** * Properties *)

(** ** Text and comparison *)

Lemma chars_append (a b : string) : chars (a +:+ b) = chars a ++ chars b.
Proof.
  induction a as [|c a IH]; simpl; [reflexivity|].
  unfold chars in *. simpl. now rewrite IH.
Qed.

Lemma chars_inj (a b : string) : chars a = chars b → a = b.
Proof.
  intros H. rewrite <- (string_of_list_ascii_of_string a).
  rewrite <- (string_of_list_ascii_of_string b).
  unfold chars in H. now rewrite H.
Qed.

Lemma length_chars (s : string) : length (chars s) = String.length s.
Proof. induction s as [|c s IH]; simpl; [reflexivity|]. unfold chars in *. simpl. now rewrite IH. Qed.

Lemma is_ascii_append (a b : string) : is_ascii (a +:+ b) = is_ascii a && is_ascii b.
Proof. unfold is_ascii. rewrite chars_append. apply forallb_app. Qed.

Lemma hex_digit_ascii (n : N) : (ord (hex_digit n) <? 128)%N = true.
Proof.
  unfold hex_digit.
  assert (Hall : Forall (λ c, (ord c <? 128)%N = true) hexdigits)
    by (repeat constructor).
  destruct (nth_in_or_default (N.to_nat n) hexdigits "0"%char) as [Hin | ->];
    [|reflexivity].
  rewrite List.Forall_forall in Hall. now apply Hall.
Qed.

Lemma hexdigest_ascii (d : bytes) : is_ascii (hexdigest d) = true.
Proof.
  induction d as [|b d IH]; [reflexivity|].
  simpl. rewrite is_ascii_append, IH, andb_true_r.
  unfold is_ascii, hex_byte. cbn [chars list_ascii_of_string forallb].
  now rewrite !hex_digit_ascii.
Qed.

Lemma ord_inj (x y : ascii) : ord x = ord y → x = y.
Proof.
  unfold ord. intros H.
  rewrite <- (ascii_N_embedding x), <- (ascii_N_embedding y). now rewrite H.
Qed.

(** The accumulator of the explicit comparison is zero exactly when it
    started at zero and every pair of characters agrees. *)
Lemma xor_fold_zero (l : list (ascii * ascii)) (acc : N) :
  fold_left (λ result xy, N.lor result (N.lxor (ord xy.1) (ord xy.2))) l acc = 0%N
  ↔ acc = 0%N ∧ Forall (λ xy, xy.1 = xy.2) l.
Proof.
  revert acc. induction l as [|[x y] l IH]; intros acc; simpl.
  - split; [intros ->; split; [reflexivity|constructor] | now intros [-> _]].
  - rewrite IH, N.lor_eq_0_iff, N.lxor_eq_0_iff. split.
    + intros [[-> Hxy] Hl]. split; [reflexivity|].
      constructor; [now apply ord_inj | exact Hl].
    + intros [-> Hl]. inversion Hl as [|? ? Hxy Hl']; subst. simpl in Hxy. subst.
      repeat split; assumption.
Qed.

Lemma zip_all_equal (a b : list ascii) :
  length a = length b → Forall (λ xy, xy.1 = xy.2) (zip a b) → a = b.
Proof.
  revert b. induction a as [|x a IH]; intros [|y b] Hlen Hall; simpl in *;
    try discriminate; [reflexivity|].
  inversion Hall as [|? ? Hxy Hall']; subst. simpl in Hxy. subst.
  f_equal. apply IH; [lia | assumption].
Qed.

Lemma zip_diag (a : list ascii) : Forall (λ xy, xy.1 = xy.2) (zip a a).
Proof. induction a; simpl; constructor; auto. Qed.

Section Properties.

Context (hmac_sha256 : bytes → bytes → bytes).
Context (decode_utf8 : bytes → result string).
Context (json_loads : string → result json).
Context (Flask_init : string → Flask).
Context (route : Flask → string → list string → view → result unit * Flask).
Context (env : PyEnv).

(** Unfolding of the modelled functions, by their global names. *)
Ltac open_hash := unfold request_hash.
Ltac open_verify := unfold verify_signature.
Ltac open_range := unfold out_of_range.
Ltac open_checks := unfold base_checks.
Ltac open_event := unfold event.
Ltac open_interactive := unfold interactive.
Ltac open_options := unfold options.
Ltac open_view := unfold event, interactive, options.
Ltac open_init := unfold SlackServer_init.

#[local] Abbreviation py_int := (py_int env).
#[local] Abbreviation out_of_range := (out_of_range env).
#[local] Abbreviation bind_route := (bind_route route).
#[local] Abbreviation SlackServer_init := (SlackServer_init Flask_init route env).
#[local] Abbreviation request_hash := (request_hash hmac_sha256).
#[local] Abbreviation verify_signature := (verify_signature hmac_sha256 env).
#[local] Abbreviation base_checks := (base_checks hmac_sha256 env).
#[local] Abbreviation event := (event hmac_sha256 decode_utf8 json_loads env).
#[local] Abbreviation interactive := (interactive hmac_sha256 json_loads env).
#[local] Abbreviation options := (options hmac_sha256 json_loads env).
#[local] Abbreviation run_view := (run_view hmac_sha256 decode_utf8 json_loads env).

(** ** [verify_signature] *)

Lemma request_hash_ascii secret ts raw : is_ascii (request_hash secret ts raw) = true.
Proof.
  open_hash. rewrite is_ascii_append, hexdigest_ascii. reflexivity.
Qed.

(** The explicit comparison of lines 76 to 85 is equality of the texts. *)
Lemma explicit_comparison (a b : string) :
  (if negb (String.length a =? String.length b)%nat then Ok false
   else Ok (fold_left (λ result xy, N.lor result (N.lxor (ord xy.1) (ord xy.2)))
                      (py_zip a (Some b)) 0 =? 0)%N)
  = Ok (String.eqb a b).
Proof.
  unfold py_zip. simpl.
  destruct (String.length a =? String.length b)%nat eqn:Hlen; simpl.
  - apply Nat.eqb_eq in Hlen. f_equal.
    destruct (String.eqb a b) eqn:Hab.
    + apply String.eqb_eq in Hab. subst b. apply N.eqb_eq, xor_fold_zero.
      split; [reflexivity | apply zip_diag].
    + apply N.eqb_neq. intros H. apply xor_fold_zero in H as [_ H].
      apply String.eqb_neq in Hab. apply Hab, chars_inj, zip_all_equal; [|exact H].
      now rewrite !length_chars.
  - apply Nat.eqb_neq in Hlen. f_equal. symmetry. apply String.eqb_neq.
    intros ->. now apply Hlen.
Qed.

(** On an ASCII header, and on every header where [hmac] lacks
    [compare_digest], the method decides equality with the request hash. *)
Lemma verify_signature_eqb self req ts sig :
  is_ascii sig = true ∨ has_compare_digest env = false →
  verify_signature self req ts (Some sig)
  = Ok (String.eqb (request_hash (signing_secret self) ts (data req)) sig).
Proof.
  intros H. open_verify.
  destruct (has_compare_digest env) eqn:Hcd.
  - destruct H as [Hsig | ?]; [|discriminate].
    destruct (major (sys_version_info env) =? 2)%N; simpl.
    + rewrite request_hash_ascii, Hsig. reflexivity.
    + rewrite request_hash_ascii, Hsig. reflexivity.
  - exact (explicit_comparison _ sig).
Qed.

(** With [compare_digest], a header with a character outside ASCII makes
    the comparison raise. *)
Lemma verify_signature_raises self req ts sig :
  has_compare_digest env = true → is_ascii sig = false →
  verify_signature self req ts (Some sig)
  = Raise (if (major (sys_version_info env) =? 2)%N then UnicodeEncodeError else TypeError).
Proof.
  intros Hcd Hsig. open_verify. rewrite Hcd.
  destruct (major (sys_version_info env) =? 2)%N; simpl.
  - rewrite request_hash_ascii, Hsig. reflexivity.
  - rewrite request_hash_ascii, Hsig. reflexivity.
Qed.

(** ** [base_checks] *)

#[local] Abbreviation timestamp_of req := (headers req !! "X-Slack-Request-Timestamp").
#[local] Abbreviation signature_of req := (headers req !! "X-Slack-Signature").
#[local] Abbreviation error_calls self msg :=
  (calls (emitter self) (JStr "error") (VExc (SlackEventAdapterException (Some msg)))).

Lemma base_checks_get self now req tr :
  method req = "GET" →
  ∃ r, base_checks self now req tr = (Ok (BcResponse r), tr) ∧ status r = 404%Z.
Proof.
  intros Hm. open_checks. rewrite Hm. simpl. eexists. split; reflexivity.
Qed.

Lemma base_checks_timestamp_raises self now req tr e :
  method req ≠ "GET" →
  out_of_range now (timestamp_of req) = Raise e →
  base_checks self now req tr = (Raise e, tr).
Proof.
  intros Hm Hts. apply String.eqb_neq in Hm.
  open_checks. rewrite Hm, Hts. reflexivity.
Qed.

Lemma base_checks_stale self now req tr :
  method req ≠ "GET" →
  out_of_range now (timestamp_of req) = Ok true →
  base_checks self now req tr
  = (Ok (BcResponse forbidden), tr ++ error_calls self "Invalid request timestamp").
Proof.
  intros Hm Hts. apply String.eqb_neq in Hm.
  open_checks. rewrite Hm, Hts. reflexivity.
Qed.

Lemma base_checks_signature_raises self now req tr e :
  method req ≠ "GET" →
  out_of_range now (timestamp_of req) = Ok false →
  verify_signature self req (timestamp_of req) (signature_of req) = Raise e →
  base_checks self now req tr = (Raise e, tr).
Proof.
  intros Hm Hts Hsig. apply String.eqb_neq in Hm.
  open_checks. rewrite Hm, Hts. simpl. unfold mbind, M_bind, lift.
  rewrite Hsig. reflexivity.
Qed.

Lemma base_checks_unverified self now req tr :
  method req ≠ "GET" →
  out_of_range now (timestamp_of req) = Ok false →
  verify_signature self req (timestamp_of req) (signature_of req) = Ok false →
  base_checks self now req tr
  = (Ok (BcResponse forbidden), tr ++ error_calls self "Invalid request signature").
Proof.
  intros Hm Hts Hsig. apply String.eqb_neq in Hm.
  open_checks. rewrite Hm, Hts. simpl. unfold mbind, M_bind, lift.
  rewrite Hsig. reflexivity.
Qed.

Lemma base_checks_verified self now req tr :
  method req ≠ "GET" →
  out_of_range now (timestamp_of req) = Ok false →
  verify_signature self req (timestamp_of req) (signature_of req) = Ok true →
  base_checks self now req tr = (Ok BcTrue, tr).
Proof.
  intros Hm Hts Hsig. apply String.eqb_neq in Hm.
  open_checks. rewrite Hm, Hts. simpl. unfold mbind, M_bind, lift.
  rewrite Hsig. reflexivity.
Qed.

(** A view function hands back what [base_checks] did not let through. *)
Lemma view_rejected f self now req tr r tr' :
  base_checks self now req tr = (Ok (BcResponse r), tr') →
  run_view f self now req tr = (Ok (Some r), tr').
Proof.
  intros H. destruct f; simpl;
    open_view;
    unfold mbind at 1, M_bind at 1; rewrite H; reflexivity.
Qed.

Lemma view_raised f self now req tr e tr' :
  base_checks self now req tr = (Raise e, tr') →
  run_view f self now req tr = (Raise e, tr').
Proof.
  intros H. destruct f; simpl;
    open_view;
    unfold mbind at 1, M_bind at 1; rewrite H; reflexivity.
Qed.

Lemma calls_spec em name value c :
  c ∈ calls em name value → callee c ∈ handlers_of em name ∧ argument c = value.
Proof.
  unfold calls. intros H. apply list_elem_of_fmap in H as (h & -> & Hh). now split.
Qed.

(** X18.  For every request to one of the three views whose method is
    not GET: when the test of line 96 is true, or it is false and the
    signature comparison returns false, the view answers 403 with an
    empty body and the only calls made are one call per listener
    registered under ["error"], in registration order, each with the
    exception object; no listener receives the payload of the request. *)
Theorem failed_check_is_forbidden f self now req :
  method req ≠ "GET" →
  out_of_range now (timestamp_of req) = Ok true
  ∨ (out_of_range now (timestamp_of req) = Ok false
     ∧ verify_signature self req (timestamp_of req) (signature_of req) = Ok false) →
  ∃ (msg : string) (tr : list Call),
    let e := SlackEventAdapterException (Some msg) in
    run_view f self now req [] = (Ok (Some forbidden), tr)
    ∧ (msg = "Invalid request timestamp" ∨ msg = "Invalid request signature")
    ∧ tr = calls (emitter self) (JStr "error") (VExc e)
    ∧ ∀ c, c ∈ tr →
        callee c ∈ handlers_of (emitter self) (JStr "error") ∧ argument c = VExc e.
Proof.
  intros Hm [Hts | [Hts Hsig]].
  - exists "Invalid request timestamp". eexists. split; [|split; [|split]].
    + apply view_rejected. now rewrite base_checks_stale.
    + now left.
    + reflexivity.
    + intros c. apply calls_spec.
  - exists "Invalid request signature". eexists. split; [|split; [|split]].
    + apply view_rejected. now rewrite base_checks_unverified.
    + now right.
    + reflexivity.
    + intros c. apply calls_spec.
Qed.

(** ** The replay window *)

Lemma out_of_range_numeric now ts n :
  py_int ts = Ok n →
  (Z.abs n < float_overflow_bound)%Z →
  out_of_range now ts = Ok (negb (Qle_bool (Qabs (now - inject_Z n)) 300)).
Proof.
  intros H Hb. open_range. rewrite H. cbn [mbind result_bind].
  unfold float_of_int. destruct (Z.ltb_spec (Z.abs n) float_overflow_bound); [|lia].
  reflexivity.
Qed.

(** From [float_overflow_bound] on, the subtraction of line 96 raises. *)
Lemma out_of_range_overflow now ts n :
  py_int ts = Ok n →
  (float_overflow_bound <= Z.abs n)%Z →
  out_of_range now ts = Raise OverflowError.
Proof.
  intros H Hb. open_range. rewrite H. cbn [mbind result_bind].
  unfold float_of_int. destruct (Z.ltb_spec (Z.abs n) float_overflow_bound); [lia|].
  reflexivity.
Qed.

Lemma out_of_range_false_iff now ts n :
  py_int ts = Ok n →
  (Z.abs n < float_overflow_bound)%Z →
  out_of_range now ts = Ok false ↔ (Qabs (now - inject_Z n) <= 300)%Q.
Proof.
  intros H Hb. rewrite (out_of_range_numeric now ts n H Hb), <- Qle_bool_iff.
  destruct (Qle_bool _ _); simpl; split; congruence.
Qed.

Lemma out_of_range_true_iff now ts n :
  py_int ts = Ok n →
  (Z.abs n < float_overflow_bound)%Z →
  out_of_range now ts = Ok true ↔ (300 < Qabs (now - inject_Z n))%Q.
Proof.
  intros H Hb. rewrite (out_of_range_numeric now ts n H Hb). split.
  - intros Hx. apply Qnot_le_lt. rewrite <- Qle_bool_iff.
    destruct (Qle_bool _ _); simpl in Hx; congruence.
  - intros Hlt. apply Qlt_not_le in Hlt. rewrite <- Qle_bool_iff in Hlt.
    destruct (Qle_bool _ _); simpl; congruence.
Qed.

(** X19.  For a request whose method is not GET and whose timestamp
    header is numeric with a value [n] below the float overflow bound,
    read at clock time [now]: the replay test lets the request through iff
    [|now - n| <= 300]; at a difference of exactly 300 it lets it through;
    at a difference above 300 every view answers 403 with the timestamp
    error sent to the ["error"] listeners; and inside the window the
    outcome of [base_checks] is that of the signature comparison alone. *)
Theorem replay_window_inclusive self now req t n :
  method req ≠ "GET" →
  timestamp_of req = Some t →
  py_int (Some t) = Ok n →
  (Z.abs n < float_overflow_bound)%Z →
  (out_of_range now (Some t) = Ok false ↔ (Qabs (now - inject_Z n) <= 300)%Q)
  ∧ ((Qabs (now - inject_Z n) == 300)%Q → out_of_range now (Some t) = Ok false)
  ∧ ((300 < Qabs (now - inject_Z n))%Q →
     ∀ f, run_view f self now req []
          = (Ok (Some forbidden), error_calls self "Invalid request timestamp"))
  ∧ ((Qabs (now - inject_Z n) <= 300)%Q →
     base_checks self now req []
     = match verify_signature self req (Some t) (signature_of req) with
       | Ok true => (Ok BcTrue, [])
       | Ok false =>
           (Ok (BcResponse forbidden), error_calls self "Invalid request signature")
       | Raise e => (Raise e, [])
       end).
Proof.
  intros Hm Hts Hn Hb. split; [|split; [|split]].
  - now apply out_of_range_false_iff.
  - intros Heq. apply (out_of_range_false_iff now (Some t) n Hn Hb).
    rewrite Heq. apply Qle_refl.
  - intros Hlt f. apply (out_of_range_true_iff now (Some t) n Hn Hb) in Hlt.
    apply view_rejected.
    rewrite base_checks_stale by (rewrite ?Hts; assumption). reflexivity.
  - intros Hle. apply (out_of_range_false_iff now (Some t) n Hn Hb) in Hle.
    rewrite <- Hts in Hle |- *.
    destruct (verify_signature self req (timestamp_of req) (signature_of req))
      as [[|]|e] eqn:Hsig.
    + now apply base_checks_verified.
    + now rewrite base_checks_unverified.
    + now apply base_checks_signature_raises.
Qed.

(** ** Malformed headers *)

Lemma py_int_none : py_int None = Raise TypeError.
Proof. reflexivity. Qed.

Lemma out_of_range_raises now ts e : py_int ts = Raise e → out_of_range now ts = Raise e.
Proof. intros H. open_range. rewrite H. reflexivity. Qed.

(** Without a signature header the comparison raises, except on
    Python 2 with [compare_digest], where [bytes(None)] is text. *)
Lemma verify_signature_missing self req ts :
  (has_compare_digest env = false ∨ major (sys_version_info env) ≠ 2%N) →
  verify_signature self req ts None = Raise TypeError.
Proof.
  intros H. open_verify.
  destruct (has_compare_digest env); [|reflexivity].
  destruct H as [? | H]; [discriminate|].
  apply N.eqb_neq in H. rewrite H. reflexivity.
Qed.

(** ** The view functions *)

Lemma bind_lift {A B : Type} (r : result A) (k : A → M B) tr :
  (lift r ≫= k) tr = match r with Ok a => k a tr | Raise e => (Raise e, tr) end.
Proof. unfold mbind, M_bind, lift. now destruct r. Qed.

Lemma bind_emit {B : Type} em name value (k : unit → M B) tr :
  (emit em name value ≫= k) tr = k () (tr ++ calls em name value).
Proof. reflexivity. Qed.

Lemma bind_checks {B : Type} self now req (k : checked → M B) tr bc tr' :
  base_checks self now req tr = (Ok bc, tr') →
  (base_checks self now req ≫= k) tr = k bc tr'.
Proof. intros H. unfold mbind, M_bind. now rewrite H. Qed.

Lemma py_contains_present d key v :
  d !! key = Some v → py_contains (JObj d) key = Ok true.
Proof. intros H. simpl. f_equal. apply bool_decide_eq_true. now rewrite H. Qed.

Lemma py_contains_absent d key :
  d !! key = None → py_contains (JObj d) key = Ok false.
Proof.
  intros H. simpl. f_equal. apply bool_decide_eq_false. rewrite H. now intros [? ?].
Qed.

Ltac run_view_body :=
  repeat first
    [ rewrite bind_lift
    | rewrite bind_emit
    | erewrite bind_checks by eassumption ].

Lemma make_response_accepts b st hs :
  is_response_body b = true →
  make_response b st hs = Ok {| body := b; status := st; response_headers := hs |}.
Proof. now destruct b. Qed.

Lemma make_response_refuses b st hs :
  is_response_body b = false → make_response b st hs = Raise TypeError.
Proof. now destruct b. Qed.


(** C6.  For a request to the events view that passes [base_checks] and
    whose body is a JSON object without ["challenge"] and with an
    ["event"] whose ["type"] is [t], the calls made are one call per
    listener registered under [t], in registration order, each with the
    whole outer object; the answer is 200 with an empty body and the
    package string in the header [X-Slack-Powered-By]. *)
Theorem event_envelope_dispatched self now req text d inner t :
  base_checks self now req [] = (Ok BcTrue, []) →
  decode_utf8 (data req) = Ok text →
  json_loads text = Ok (JObj d) →
  d !! "challenge" = None →
  d !! "event" = Some inner →
  py_getitem inner "type" = Ok t →
  ∃ resp,
    event self now req [] = (Ok (Some resp), calls (emitter self) t (VJson (JObj d)))
    ∧ status resp = 200%Z ∧ body resp = JStr ""
    ∧ response_headers resp = {[ "X-Slack-Powered-By" := package_info self ]}.
Proof.
  intros Hbc Htext Hjson Hc He Ht. eexists. split; [|split; [|split]].
  - open_event. run_view_body.
    rewrite Htext. run_view_body. rewrite Hjson. run_view_body.
    rewrite (py_contains_absent d "challenge" Hc). run_view_body.
    rewrite (py_contains_present d "event" inner He). run_view_body.
    simpl py_getitem at 1. rewrite He. run_view_body. rewrite Ht. run_view_body.
    reflexivity.
  - reflexivity.
  - reflexivity.
  - simpl. apply insert_empty.
Qed.

(** C7.  For a request to the interactive view that passes
    [base_checks]: when the form has a ["payload"] field that parses to a
    value whose ["type"] is [t], the calls made are one call per listener
    registered under [t], each with the parsed value, and the answer is
    200 with an empty body and the package string in
    [X-Slack-Powered-By]; when the form has no ["payload"] field, the
    answer is 200 with an empty body, no header, and no call. *)
Theorem interactive_payload_dispatched self now req :
  base_checks self now req [] = (Ok BcTrue, []) →
  (∀ field payload t,
      form req !! "payload" = Some field →
      json_loads field = Ok payload →
      py_getitem payload "type" = Ok t →
      ∃ resp,
        interactive self now req []
        = (Ok (Some resp), calls (emitter self) t (VJson payload))
        ∧ status resp = 200%Z ∧ body resp = JStr ""
        ∧ response_headers resp = {[ "X-Slack-Powered-By" := package_info self ]})
  ∧ (form req !! "payload" = None →
     interactive self now req []
     = (Ok (Some {| body := JStr ""; status := 200; response_headers := ∅ |}), [])).
Proof.
  intros Hbc. split.
  - intros field payload t Hf Hjson Ht. eexists. split; [|split; [|split]].
    + open_interactive. run_view_body. rewrite Hf. run_view_body.
      rewrite Hjson. run_view_body. rewrite Ht. run_view_body. reflexivity.
    + reflexivity.
    + reflexivity.
    + simpl. apply insert_empty.
  - intros Hf. open_interactive. run_view_body. rewrite Hf. reflexivity.
Qed.

Lemma options_list_shape : Forall is_option_object options_list.
Proof. repeat constructor; eexists _, _; reflexivity. Qed.

(** C8.  For a request to the options view that passes [base_checks]
    and whose form has a ["payload"] field that parses to a value with a
    ["type"], the body of the answer is the list [options_list]: a
    constant of the program, not empty, each element of the shape
    [{text: {type: "plain_text", text: string}, value: string}]; it does
    not mention the payload, the listeners or the calls made. *)
Theorem options_answer_is_fixed self now req field payload t :
  base_checks self now req [] = (Ok BcTrue, []) →
  form req !! "payload" = Some field →
  json_loads field = Ok payload →
  py_getitem payload "type" = Ok t →
  ∃ resp,
    options self now req [] = (Ok (Some resp), calls (emitter self) t (VJson payload))
    ∧ status resp = 200%Z
    ∧ body resp = JArr options_list
    ∧ options_list ≠ []
    ∧ Forall is_option_object options_list.
Proof.
  intros Hbc Hf Hjson Ht. eexists. split; [|split; [|split; [|split]]].
  - open_options. run_view_body. rewrite Hf. run_view_body.
    rewrite Hjson. run_view_body. rewrite Ht. run_view_body. reflexivity.
  - reflexivity.
  - reflexivity.
  - discriminate.
  - apply options_list_shape.
Qed.

(** C9 (amended).  For a request that passes [base_checks]: an events
    body that is a JSON object without ["challenge"] whose ["event"] is
    an object without ["type"], and an interactive or options ["payload"]
    that parses to an object without ["type"], make the view raise
    [KeyError]; no listener is called and no response is produced. *)
Theorem missing_type_raises self now req :
  base_checks self now req [] = (Ok BcTrue, []) →
  (∀ text d inner,
      decode_utf8 (data req) = Ok text →
      json_loads text = Ok (JObj d) →
      d !! "challenge" = None →
      d !! "event" = Some (JObj inner) →
      inner !! "type" = None →
      event self now req [] = (Raise (KeyError "type"), []))
  ∧ (∀ field d,
        form req !! "payload" = Some field →
        json_loads field = Ok (JObj d) →
        d !! "type" = None →
        interactive self now req [] = (Raise (KeyError "type"), [])
        ∧ options self now req [] = (Raise (KeyError "type"), [])).
Proof.
  intros Hbc. split.
  - intros text d inner Htext Hjson Hc He Ht.
    open_event. run_view_body.
    rewrite Htext. run_view_body. rewrite Hjson. run_view_body.
    rewrite (py_contains_absent d "challenge" Hc). run_view_body.
    rewrite (py_contains_present d "event" _ He). run_view_body.
    simpl py_getitem at 1. rewrite He. run_view_body. simpl. rewrite Ht. reflexivity.
  - intros field d Hf Hjson Ht. split.
    + open_interactive. run_view_body. rewrite Hf. run_view_body.
      rewrite Hjson. run_view_body. simpl. rewrite Ht. reflexivity.
    + open_options. run_view_body. rewrite Hf. run_view_body.
      rewrite Hjson. run_view_body. simpl. rewrite Ht. reflexivity.
Qed.

(** ** The constructor *)

(** C10 (amended).  A [server] argument that is true in a Boolean
    context and is not a Flask instance makes the constructor raise
    [TypeError] with no route bound: [route] is not called, the argument
    is as it was and [Flask.__init__] has not run on [self].  With a
    Flask instance, [bind_route] runs on that instance and no application
    is created; the outcome of the constructor is the outcome of
    [bind_route], which is an exception when Flask's [route] raises one.
    A [server] argument that is false in a Boolean context ([None], and
    also a false object that is not a Flask instance) leads to
    [Flask.__init__] on [self], and [bind_route] runs on [self]. *)
Theorem constructor_server_argument secret ev ia op em server :
  let self :=
    {| signing_secret := secret; emitter := em; events_endpoint := ev;
       interactive_endpoint := ia; options_endpoint := op;
       package_info := get_package_info env |} in
  (truthy server = true → as_Flask server = None →
   SlackServer_init secret ev ia op em server
   = (Raise TypeError, {| instance := self; own_app := None; server_after := server |}))
  ∧ (∀ app, server = PyFlask app →
       SlackServer_init secret ev ia op em server
       = (fst (bind_route self app),
          {| instance := self; own_app := None;
             server_after := PyFlask (snd (bind_route self app)) |}))
  ∧ (truthy server = false →
     SlackServer_init secret ev ia op em server
     = (fst (bind_route self (Flask_init module_name)),
        {| instance := self;
           own_app := Some (snd (bind_route self (Flask_init module_name)));
           server_after := server |})).
Proof.
  intros self. open_init. fold self. split; [|split].
  - intros Ht Hf. rewrite Ht, Hf. reflexivity.
  - intros app ->. simpl. now destruct (bind_route self app).
  - intros Ht. rewrite Ht. now destruct (bind_route self (Flask_init module_name)).
Qed.

End Properties.

(** * The sample deployment *)

(** ** Python primitives on concrete input *)

Example py_int_plain : py_int sample_env (Some "1531420618") = Ok 1531420618%Z.
Proof. reflexivity. Qed.

Example py_int_padded : py_int sample_env (Some " -1_000 ") = Ok (-1000)%Z.
Proof. reflexivity. Qed.

Example py_int_underscore_old : py_int sample_env_old (Some "1_000") = Raise ValueError.
Proof. reflexivity. Qed.

Example py_int_nbsp : py_int sample_env (Some (String "160"%char "7")) = Ok 7%Z.
Proof. reflexivity. Qed.

Example py_int_word : py_int sample_env (Some "12a") = Raise ValueError.
Proof. reflexivity. Qed.

Example py_int_empty : py_int sample_env (Some "") = Raise ValueError.
Proof. reflexivity. Qed.

Example py_int_double_underscore : py_int sample_env (Some "1__0") = Raise ValueError.
Proof. reflexivity. Qed.

Example py_int_digit_limit :
  py_int sample_env (Some (string_of_list_ascii (repeat "1"%char 4301))) = Raise ValueError
  ∧ ∃ n, py_int sample_env (Some (string_of_list_ascii (repeat "1"%char 4300))) = Ok n.
Proof. split; [|eexists]; vm_compute; reflexivity. Qed.

Example float_of_int_bounds :
  float_of_int (float_overflow_bound - 1) = Ok (inject_Z (float_overflow_bound - 1))
  ∧ float_of_int float_overflow_bound = Raise OverflowError
  ∧ float_of_int (- float_overflow_bound) = Raise OverflowError.
Proof. repeat split; vm_compute; reflexivity. Qed.

Example str_encode_latin1 : str_encode (String "233"%char "a") = [xc3; xa9; x61].
Proof. reflexivity. Qed.

Example hexdigest_sample : hexdigest [x00; xa9; xff] = "00a9ff".
Proof. reflexivity. Qed.

Example sample_signature_challenge :
  sample_signature text_challenge
  = "v0=efbfa3c571a5ab2c23f221897bf09531fb3e1674819974630526c5c82d017102".
Proof. vm_compute. reflexivity. Qed.

Example sample_package_info :
  get_package_info sample_env = "slackeventsapi/2.1.0 Python/3.11.2 Linux/6.1.0".
Proof. vm_compute. reflexivity. Qed.

Example get_is_not_found :
  ∃ r, sample_view view_event sample_now
         {| method := "GET"; headers := ∅; data := []; form := ∅ |} = (Ok (Some r), [])
       ∧ status r = 404%Z.
Proof. eexists. split; vm_compute; reflexivity. Qed.

(** ** C1 *)

(** C1.  The signature header [v0=] followed by U+00E9 differs from the
    expected signature of the sample request.  With [hmac.compare_digest]
    (line 67) the method raises [TypeError] instead of returning false;
    the explicit comparison of lines 76 to 85, on the interpreter without
    [compare_digest], returns false on the same header. *)
Theorem verify_signature_latin1_raises :
  latin1_signature ≠ sample_signature text_challenge
  ∧ verify_signature sample_hmac sample_env sample_self request_challenge
      (Some sample_timestamp) (Some latin1_signature) = Raise TypeError
  ∧ verify_signature sample_hmac sample_env_old sample_self request_challenge
      (Some sample_timestamp) (Some latin1_signature) = Ok false.
Proof.
  split; [|split].
  - apply String.eqb_neq. vm_compute. reflexivity.
  - vm_compute. reflexivity.
  - vm_compute. reflexivity.
Qed.

Example verify_signature_sample_runs :
  verify_signature sample_hmac sample_env sample_self request_challenge
    (Some sample_timestamp) (Some (sample_signature text_challenge)) = Ok true
  ∧ verify_signature sample_hmac sample_env sample_self request_challenge
      (Some sample_timestamp) (Some "v0=00") = Ok false.
Proof. split; vm_compute; reflexivity. Qed.

(** ** C2 *)

(** C2.  Two POST requests that fail a check.  The timestamp of the
    first is the word [soon], so the replay check cannot find it fresh;
    the signature of the second is [v0=] and U+00E9, which differs from
    the expected signature.  On each of the three views the first raises
    [ValueError] (line 96) and the second raises [TypeError] (line 67): no
    403 is answered and the ["error"] listener of the sample deployment
    is not called, against the comments of lines 94 and 102. *)
Theorem failed_check_raises (f : view) :
  sample_view f sample_now request_word_timestamp = (Raise ValueError, [])
  ∧ sample_view f sample_now request_latin1_signature = (Raise TypeError, [])
  ∧ handlers_of sample_emitter (JStr "error") = [0%nat].
Proof. destruct f; repeat split; vm_compute; reflexivity. Qed.

Lemma failed_check_is_forbidden_witness :
  ∃ (msg : string) (tr : list Call),
    let e := SlackEventAdapterException (Some msg) in
    sample_view view_event stale_now request_message = (Ok (Some forbidden), tr)
    ∧ (msg = "Invalid request timestamp" ∨ msg = "Invalid request signature")
    ∧ tr = calls sample_emitter (JStr "error") (VExc e)
    ∧ ∀ c, c ∈ tr →
        callee c ∈ handlers_of sample_emitter (JStr "error") ∧ argument c = VExc e.
Proof.
  apply (failed_check_is_forbidden sample_hmac sample_decode_utf8 sample_json_loads
           sample_env view_event sample_self stale_now request_message).
  - discriminate.
  - left. vm_compute. reflexivity.
Defined.

Example stale_request_run :
  sample_view view_event stale_now request_message
  = (Ok (Some forbidden), sample_error_calls "Invalid request timestamp").
Proof. vm_compute. reflexivity. Qed.

Example wrong_signature_run :
  sample_view view_interactive sample_now request_wrong_signature
  = (Ok (Some forbidden), sample_error_calls "Invalid request signature").
Proof. vm_compute. reflexivity. Qed.

(** ** C3 *)

(** C3.  Requests without a timestamp header, with the timestamp [soon],
    without a signature header and with a signature outside ASCII: each
    raises, nothing is emitted and no 403 is produced.  On the
    interpreter without [compare_digest] the signature outside ASCII is
    answered 403 with the error emitted. *)
Theorem malformed_headers_raise :
  sample_view view_event sample_now request_no_timestamp = (Raise TypeError, [])
  ∧ sample_view view_event sample_now request_word_timestamp = (Raise ValueError, [])
  ∧ sample_view view_event sample_now request_no_signature = (Raise TypeError, [])
  ∧ sample_view view_event sample_now request_latin1_signature = (Raise TypeError, [])
  ∧ run_view sample_hmac sample_decode_utf8 sample_json_loads sample_env_old
      view_event sample_self sample_now request_latin1_signature []
    = (Ok (Some forbidden), sample_error_calls "Invalid request signature").
Proof. repeat split; vm_compute; reflexivity. Qed.

(** ** C4 *)

(** C4.  A POST whose timestamp header is the numeral of 310 digits for
    10^309, at the clock reading of the samples: [int] accepts it, the
    difference is far above 300, and each view raises [OverflowError] on
    line 96; there is no 403 and no listener is called. *)
Theorem huge_timestamp_overflows :
  py_int sample_env (Some huge_timestamp) = Ok (10 ^ 309)%Z
  ∧ sample_view view_event sample_now request_huge_timestamp = (Raise OverflowError, [])
  ∧ sample_view view_interactive sample_now request_huge_timestamp
    = (Raise OverflowError, [])
  ∧ sample_view view_options sample_now request_huge_timestamp
    = (Raise OverflowError, []).
Proof. repeat split; vm_compute; reflexivity. Qed.

Lemma replay_window_inclusive_witness :
  out_of_range sample_env boundary_now (Some sample_timestamp) = Ok false
  ∧ sample_checks boundary_now request_message = (Ok BcTrue, [])
  ∧ sample_view view_event stale_now request_message
    = (Ok (Some forbidden),
       calls sample_emitter (JStr "error")
         (VExc (SlackEventAdapterException (Some "Invalid request timestamp")))).
Proof.
  split; [|split].
  - destruct (replay_window_inclusive sample_hmac sample_decode_utf8 sample_json_loads
                sample_env sample_self boundary_now request_message
                sample_timestamp 1531420618)
      as (_ & H & _);
      [discriminate | reflexivity | reflexivity | vm_compute; reflexivity |].
    apply H. vm_compute. reflexivity.
  - destruct (replay_window_inclusive sample_hmac sample_decode_utf8 sample_json_loads
                sample_env sample_self boundary_now request_message
                sample_timestamp 1531420618)
      as (_ & _ & _ & H);
      [discriminate | reflexivity | reflexivity | vm_compute; reflexivity |].
    unfold sample_checks. rewrite H; [vm_compute; reflexivity|].
    vm_compute. discriminate.
  - destruct (replay_window_inclusive sample_hmac sample_decode_utf8 sample_json_loads
                sample_env sample_self stale_now request_message
                sample_timestamp 1531420618)
      as (_ & _ & H & _);
      [discriminate | reflexivity | reflexivity | vm_compute; reflexivity |].
    apply H. vm_compute. reflexivity.
Defined.

Example boundary_request_run :
  ∃ resp, sample_view view_event boundary_now request_message
          = (Ok (Some resp), calls sample_emitter (JStr "message") (VJson json_message))
          ∧ status resp = 200%Z.
Proof. eexists. split; vm_compute; reflexivity. Qed.

(** ** C5 *)



(** ** C6 *)

Lemma event_envelope_dispatched_witness :
  ∃ resp,
    sample_view view_event sample_now request_message
    = (Ok (Some resp), calls sample_emitter (JStr "message") (VJson json_message))
    ∧ status resp = 200%Z ∧ body resp = JStr ""
    ∧ response_headers resp = {[ "X-Slack-Powered-By" := package_info sample_self ]}.
Proof.
  apply (event_envelope_dispatched sample_hmac sample_decode_utf8 sample_json_loads
           sample_env sample_self sample_now request_message text_message
           {[ "event" := JObj {[ "type" := JStr "message"; "text" := JStr "hi" ]} ]}
           (JObj {[ "type" := JStr "message"; "text" := JStr "hi" ]}) (JStr "message")).
  - vm_compute. reflexivity.
  - vm_compute. reflexivity.
  - vm_compute. reflexivity.
  - vm_compute. reflexivity.
  - vm_compute. reflexivity.
  - vm_compute. reflexivity.
Defined.

Example message_listeners_called :
  snd (sample_view view_event sample_now request_message)
  = [ {| callee := 1; argument := VJson json_message |};
      {| callee := 2; argument := VJson json_message |} ].
Proof. vm_compute. reflexivity. Qed.

(** ** C7 *)

Lemma interactive_payload_dispatched_witness :
  (∃ resp,
      sample_view view_interactive sample_now request_block_actions
      = (Ok (Some resp),
         calls sample_emitter (JStr "block_actions") (VJson json_block_actions))
      ∧ status resp = 200%Z ∧ body resp = JStr ""
      ∧ response_headers resp = {[ "X-Slack-Powered-By" := package_info sample_self ]})
  ∧ sample_view view_interactive sample_now request_no_payload
    = (Ok (Some {| body := JStr ""; status := 200; response_headers := ∅ |}), []).
Proof.
  split.
  - destruct (interactive_payload_dispatched sample_hmac sample_json_loads sample_env
                sample_self sample_now request_block_actions) as (H & _);
      [vm_compute; reflexivity|].
    apply (H text_block_actions json_block_actions (JStr "block_actions"));
      vm_compute; reflexivity.
  - destruct (interactive_payload_dispatched sample_hmac sample_json_loads sample_env
                sample_self sample_now request_no_payload) as (_ & H);
      [vm_compute; reflexivity|].
    apply H. reflexivity.
Defined.

(** ** C8 *)

Lemma options_answer_is_fixed_witness :
  ∃ resp,
    sample_view view_options sample_now request_block_actions
    = (Ok (Some resp),
       calls sample_emitter (JStr "block_actions") (VJson json_block_actions))
    ∧ status resp = 200%Z
    ∧ body resp = JArr options_list
    ∧ options_list ≠ []
    ∧ Forall is_option_object options_list.
Proof.
  apply (options_answer_is_fixed sample_hmac sample_json_loads sample_env sample_self
           sample_now request_block_actions text_block_actions json_block_actions
           (JStr "block_actions")).
  - vm_compute. reflexivity.
  - vm_compute. reflexivity.
  - vm_compute. reflexivity.
  - vm_compute. reflexivity.
Defined.

(** ** C9 *)

Lemma missing_type_raises_witness :
  sample_view view_event sample_now request_untyped = (Raise (KeyError "type"), [])
  ∧ sample_view view_interactive sample_now request_empty_object
    = (Raise (KeyError "type"), [])
  ∧ sample_view view_options sample_now request_empty_object
    = (Raise (KeyError "type"), []).
Proof.
  split.
  - destruct (missing_type_raises sample_hmac sample_decode_utf8 sample_json_loads
                sample_env sample_self sample_now request_untyped) as (H & _);
      [vm_compute; reflexivity|].
    apply (H text_untyped {[ "event" := JObj ∅ ]} ∅); vm_compute; reflexivity.
  - destruct (missing_type_raises sample_hmac sample_decode_utf8 sample_json_loads
                sample_env sample_self sample_now request_empty_object) as (_ & H);
      [vm_compute; reflexivity|].
    apply (H "{}" ∅); vm_compute; reflexivity.
Defined.

(** The body [{"challenge": "x", "event": {}}] passes both checks and its
    ["event"] object has no ["type"] key; the view answers 200 with the
    challenge and raises nothing. *)
Lemma challenge_hides_missing_type :
  sample_checks sample_now request_both = (Ok BcTrue, [])
  ∧ sample_decode_utf8 (data request_both) = Ok text_both
  ∧ sample_json_loads text_both
    = Ok (JObj {[ "challenge" := JStr "x"; "event" := JObj ∅ ]})
  ∧ ∃ resp,
      sample_view view_event sample_now request_both = (Ok (Some resp), [])
      ∧ status resp = 200%Z ∧ body resp = JStr "x".
Proof.
  split; [|split; [|split]]; try (vm_compute; reflexivity).
  eexists. split; [|split]; vm_compute; reflexivity.
Qed.

(** ** C10 *)

Lemma constructor_server_argument_witness :
  SlackServer_init sample_Flask_init sample_route sample_env sample_secret
    (Some "/slack/events") (Some "/slack/interactive") (Some "/slack/options")
    sample_emitter (PyOther true)
  = (Raise TypeError,
     {| instance := sample_self; own_app := None; server_after := PyOther true |})
  ∧ SlackServer_init sample_Flask_init sample_route sample_env sample_secret
      (Some "/slack/events") (Some "/slack/interactive") (Some "/slack/options")
      sample_emitter (PyFlask sample_app)
    = (fst (bind_route sample_route sample_self sample_app),
       {| instance := sample_self; own_app := None;
          server_after := PyFlask (snd (bind_route sample_route sample_self sample_app)) |})
  ∧ SlackServer_init sample_Flask_init sample_route sample_env sample_secret
      (Some "/slack/events") (Some "/slack/interactive") (Some "/slack/options")
      sample_emitter PyNone
    = (fst (bind_route sample_route sample_self (sample_Flask_init module_name)),
       {| instance := sample_self;
          own_app :=
            Some (snd (bind_route sample_route sample_self (sample_Flask_init module_name)));
          server_after := PyNone |}).
Proof.
  split; [|split].
  - destruct (constructor_server_argument sample_Flask_init sample_route sample_env
                sample_secret (Some "/slack/events") (Some "/slack/interactive")
                (Some "/slack/options") sample_emitter (PyOther true)) as (H & _).
    apply H; reflexivity.
  - destruct (constructor_server_argument sample_Flask_init sample_route sample_env
                sample_secret (Some "/slack/events") (Some "/slack/interactive")
                (Some "/slack/options") sample_emitter (PyFlask sample_app))
      as (_ & H & _).
    apply H. reflexivity.
  - destruct (constructor_server_argument sample_Flask_init sample_route sample_env
                sample_secret (Some "/slack/events") (Some "/slack/interactive")
                (Some "/slack/options") sample_emitter PyNone) as (_ & _ & H).
    apply H. reflexivity.
Defined.

Lemma falsy_server_is_accepted :
  PyOther false ≠ PyNone
  ∧ as_Flask (PyOther false) = None
  ∧ ∃ built,
      SlackServer_init sample_Flask_init sample_route sample_env sample_secret
        (Some "/slack/events") None None sample_emitter (PyOther false) = (Ok (), built)
      ∧ (url_map <$> own_app built)
        = Some [ {| rule := "/static/<path:filename>";
                    methods := ["GET"; "HEAD"; "OPTIONS"]; endpoint := "static" |};
                 {| rule := "/slack/events";
                    methods := ["GET"; "POST"; "HEAD"; "OPTIONS"]; endpoint := "event" |} ].
Proof.
  split; [discriminate|]. split; [reflexivity|].
  eexists. split; vm_compute; reflexivity.
Qed.

Example routes_bound_on_given_server :
  (url_map <$> as_Flask (server_after (snd
     (SlackServer_init sample_Flask_init sample_route sample_env sample_secret
        (Some "/slack/events") (Some "") (Some "/slack/options") sample_emitter
        (PyFlask sample_app)))))
  = Some [ {| rule := "/health"; methods := ["GET"; "HEAD"; "OPTIONS"];
              endpoint := "health" |};
           {| rule := "/slack/events"; methods := ["GET"; "POST"; "HEAD"; "OPTIONS"];
              endpoint := "event" |};
           {| rule := "/slack/options"; methods := ["GET"; "POST"; "HEAD"; "OPTIONS"];
              endpoint := "options" |} ].
Proof. vm_compute. reflexivity. Qed.

(** An application that has an endpoint named [event] already: [route]
    raises [AssertionError] in the first block of [bind_route], the
    constructor raises it, and the later endpoints are not bound. *)
Example taken_endpoint_raises :
  ∃ built,
    SlackServer_init sample_Flask_init sample_route sample_env sample_secret
      (Some "/slack/events") None (Some "/slack/options") sample_emitter
      (PyFlask taken_app) = (Raise AssertionError, built)
    ∧ (List.map rule <$> (url_map <$> as_Flask (server_after built)))
      = Some ["/event"; "/slack/events"].
Proof. eexists. split; vm_compute; reflexivity. Qed.

(** A path without a leading slash is refused by [route]. *)
Example relative_endpoint_raises :
  fst (SlackServer_init sample_Flask_init sample_route sample_env sample_secret
         (Some "slack/events") None None sample_emitter PyNone) = Raise ValueError.
Proof. vm_compute. reflexivity. Qed.

(** * Further properties of the module *)

Section Coverage.

Context (hmac_sha256 : bytes → bytes → bytes).
Context (decode_utf8 : bytes → result string).
Context (json_loads : string → result json).
Context (route : Flask → string → list string → view → result unit * Flask).
Context (env : PyEnv).

Ltac unfold_hash := unfold request_hash.
Ltac unfold_range := unfold out_of_range.
Ltac unfold_bind := unfold bind_route, bind_one.
Ltac unfold_verify := unfold verify_signature.
Ltac unfold_checks := unfold base_checks.
Ltac unfold_event := unfold event.
Ltac unfold_interactive := unfold interactive.
Ltac unfold_options := unfold options.
Ltac reduce_view H := cbn [run_view] in H.

#[local] Abbreviation py_int := (py_int env).
#[local] Abbreviation out_of_range := (out_of_range env).
#[local] Abbreviation bind_route := (bind_route route).
#[local] Abbreviation request_hash := (request_hash hmac_sha256).
#[local] Abbreviation verify_signature := (verify_signature hmac_sha256 env).
#[local] Abbreviation base_checks := (base_checks hmac_sha256 env).
#[local] Abbreviation event := (event hmac_sha256 decode_utf8 json_loads env).
#[local] Abbreviation interactive := (interactive hmac_sha256 json_loads env).
#[local] Abbreviation options := (options hmac_sha256 json_loads env).
#[local] Abbreviation run_view := (run_view hmac_sha256 decode_utf8 json_loads env).
#[local] Abbreviation timestamp_of req := (headers req !! "X-Slack-Request-Timestamp").
#[local] Abbreviation signature_of req := (headers req !! "X-Slack-Signature").
#[local] Abbreviation error_calls self msg :=
  (calls (emitter self) (JStr "error") (VExc (SlackEventAdapterException (Some msg)))).
#[local] Abbreviation passes self now req :=
  (base_checks self now req [] = (Ok BcTrue, [])).

Ltac run_body :=
  repeat first
    [ rewrite bind_lift
    | rewrite bind_emit
    | erewrite bind_checks by eassumption ].

(** ** The outcomes of [base_checks] *)

Lemma base_checks_get_exact self now req tr :
  method req = "GET" → base_checks self now req tr = (Ok (BcResponse not_found), tr).
Proof. intros Hm. unfold_checks. rewrite Hm. reflexivity. Qed.

(** Every run of [base_checks] is one of six. *)
Lemma base_checks_cases self now req tr :
  (method req = "GET" ∧ base_checks self now req tr = (Ok (BcResponse not_found), tr))
  ∨ (method req ≠ "GET" ∧
     ((∃ e, out_of_range now (timestamp_of req) = Raise e
            ∧ base_checks self now req tr = (Raise e, tr))
      ∨ (out_of_range now (timestamp_of req) = Ok true
         ∧ base_checks self now req tr
           = (Ok (BcResponse forbidden), tr ++ error_calls self "Invalid request timestamp"))
      ∨ (out_of_range now (timestamp_of req) = Ok false ∧
         ((∃ e, verify_signature self req (timestamp_of req) (signature_of req) = Raise e
                ∧ base_checks self now req tr = (Raise e, tr))
          ∨ (verify_signature self req (timestamp_of req) (signature_of req) = Ok false
             ∧ base_checks self now req tr
               = (Ok (BcResponse forbidden),
                  tr ++ error_calls self "Invalid request signature"))
          ∨ (verify_signature self req (timestamp_of req) (signature_of req) = Ok true
             ∧ base_checks self now req tr = (Ok BcTrue, tr)))))).
Proof.
  destruct (String.eqb_spec (method req) "GET") as [Hm | Hm].
  - left. split; [assumption | now apply base_checks_get_exact].
  - right. split; [assumption|].
    destruct (out_of_range now (timestamp_of req)) as [[|]|e] eqn:Hts.
    + right. left. split; [reflexivity | now apply base_checks_stale].
    + right. right. split; [reflexivity|].
      destruct (verify_signature self req (timestamp_of req) (signature_of req))
        as [[|]|e] eqn:Hsig.
      * right. right. split; [reflexivity | now apply base_checks_verified].
      * right. left. split; [reflexivity | now apply base_checks_unverified].
      * left. exists e. split; [reflexivity | now apply base_checks_signature_raises].
    + left. exists e. split; [reflexivity | now apply base_checks_timestamp_raises].
Qed.

(** When [base_checks] returns [True], the method is not GET, the
    timestamp is in range and the comparison returned true. *)
Lemma passes_inv self now req tr tr' :
  base_checks self now req tr = (Ok BcTrue, tr') →
  tr' = tr ∧ method req ≠ "GET"
  ∧ out_of_range now (timestamp_of req) = Ok false
  ∧ verify_signature self req (timestamp_of req) (signature_of req) = Ok true.
Proof.
  intros H.
  destruct (base_checks_cases self now req tr)
    as [[_ E] | [Hm [(e & _ & E) | [[_ E] | [Hts [(e & _ & E) | [[_ E] | [Hsig E]]]]]]]];
    rewrite E in H; try discriminate.
  injection H as <-. auto.
Qed.

(** [verify_signature] returns true for no header but the request hash. *)
Lemma verify_signature_true_inv self req ts sig :
  verify_signature self req ts sig = Ok true →
  sig = Some (request_hash (signing_secret self) ts (data req)).
Proof.
  destruct sig as [s|].
  - destruct (has_compare_digest env) eqn:Hcd.
    + destruct (is_ascii s) eqn:Hs.
      * rewrite verify_signature_eqb by now left.
        destruct (String.eqb_spec (request_hash (signing_secret self) ts (data req)) s)
          as [<- | _]; [reflexivity | discriminate].
      * rewrite verify_signature_raises by assumption. discriminate.
    + rewrite verify_signature_eqb by now right.
      destruct (String.eqb_spec (request_hash (signing_secret self) ts (data req)) s)
        as [<- | _]; [reflexivity | discriminate].
  - unfold_verify.
    destruct (has_compare_digest env); [|discriminate].
    destruct (major (sys_version_info env) =? 2)%N; [|discriminate].
    simpl. rewrite request_hash_ascii. unfold_hash. simpl. discriminate.
Qed.

Lemma out_of_range_false_inv now ts :
  out_of_range now ts = Ok false →
  ∃ t n, ts = Some t ∧ py_int (Some t) = Ok n ∧ (Qabs (now - inject_Z n) <= 300)%Q.
Proof.
  intros H. destruct ts as [t|]; [|discriminate].
  destruct (py_int (Some t)) as [n|e] eqn:Hn.
  - exists t, n. repeat split; try assumption.
    destruct (Z.ltb_spec (Z.abs n) float_overflow_bound) as [Hb | Hb].
    + now apply (out_of_range_false_iff env now (Some t) n Hn Hb).
    + rewrite (out_of_range_overflow env now (Some t) n Hn Hb) in H. discriminate.
  - rewrite (out_of_range_raises env now (Some t) e Hn) in H. discriminate.
Qed.

(** ** The outcomes of a view *)

(** What a view does after [base_checks] has returned [True]: it raises
    or returns [None] before any call, or answers 200, with no call or
    with the calls of one [emit]. *)
Lemma passed_view_outcomes f self now req :
  passes self now req →
  (∃ e, run_view f self now req [] = (Raise e, []))
  ∨ run_view f self now req [] = (Ok None, [])
  ∨ (∃ resp, status resp = 200%Z ∧ run_view f self now req [] = (Ok (Some resp), []))
  ∨ (∃ resp t payload,
        status resp = 200%Z
        ∧ run_view f self now req []
          = (Ok (Some resp), calls (emitter self) t (VJson payload))).
Proof.
  intros Hbc. destruct f; simpl.
  - unfold_event. run_body.
    destruct (decode_utf8 (data req)) as [text|e]; [|left; eauto].
    run_body. destruct (json_loads text) as [v|e]; [|left; eauto].
    run_body. destruct (py_contains v "challenge") as [[|]|e]; [| |left; eauto].
    + run_body. destruct (py_get v "challenge") as [c|e]; [|left; eauto].
      run_body. destruct (is_response_body c) eqn:Hc.
      * rewrite (make_response_accepts c _ _ Hc).
        right. right. left. eexists. split; [|reflexivity]. reflexivity.
      * rewrite (make_response_refuses c _ _ Hc). left. eauto.
    + run_body. destruct (py_contains v "event") as [[|]|e]; [| |left; eauto].
      * run_body. destruct (py_getitem v "event") as [inner|e]; [|left; eauto].
        run_body. destruct (py_getitem inner "type") as [t|e]; [|left; eauto].
        run_body. right. right. right. eexists _, t, v. split; [|reflexivity]. reflexivity.
      * right. left. reflexivity.
  - unfold_interactive. run_body.
    destruct (form req !! "payload") as [field|].
    + run_body. destruct (json_loads field) as [v|e]; [|left; eauto].
      run_body. destruct (py_getitem v "type") as [t|e]; [|left; eauto].
      run_body. right. right. right. eexists _, t, v. split; [|reflexivity]. reflexivity.
    + right. right. left. eexists. split; [|reflexivity]. reflexivity.
  - unfold_options. run_body.
    destruct (form req !! "payload") as [field|].
    + run_body. destruct (json_loads field) as [v|e]; [|left; eauto].
      run_body. destruct (py_getitem v "type") as [t|e]; [|left; eauto].
      run_body. right. right. right. eexists _, t, v. split; [|reflexivity]. reflexivity.
    + right. right. left. eexists. split; [|reflexivity]. reflexivity.
Qed.

(** Every run of a view is one of six. *)
Lemma view_outcomes f self now req :
  (∃ e, run_view f self now req [] = (Raise e, []))
  ∨ run_view f self now req [] = (Ok None, [])
  ∨ (method req = "GET" ∧ run_view f self now req [] = (Ok (Some not_found), []))
  ∨ (method req ≠ "GET" ∧
     ∃ msg, (msg = "Invalid request timestamp" ∨ msg = "Invalid request signature")
            ∧ run_view f self now req [] = (Ok (Some forbidden), error_calls self msg))
  ∨ (passes self now req ∧
     ∃ resp, status resp = 200%Z ∧ run_view f self now req [] = (Ok (Some resp), []))
  ∨ (passes self now req ∧
     ∃ resp t payload,
       status resp = 200%Z
       ∧ run_view f self now req []
         = (Ok (Some resp), calls (emitter self) t (VJson payload))).
Proof.
  destruct (base_checks_cases self now req [])
    as [[Hm E] | [Hm [(e & _ & E) | [[_ E] | [Hts [(e & _ & E) | [[_ E] | [Hsig E]]]]]]]].
  - right. right. left. split; [assumption | now apply view_rejected].
  - left. exists e. now apply view_raised.
  - right. right. right. left. split; [assumption|].
    eexists. split; [now left | now apply view_rejected].
  - left. exists e. now apply view_raised.
  - right. right. right. left. split; [assumption|].
    eexists. split; [now right | now apply view_rejected].
  - destruct (passed_view_outcomes f self now req E) as [H | [H | [H | H]]]; auto 10.
Qed.

(** ** Properties of the request pipeline *)

(** X1.  A GET request to any of the three views is answered 404 with the
    fixed text, whatever its headers, body and form and whatever the clock
    reads, and no listener is called. *)
Theorem get_request_not_found f self now req :
  method req = "GET" →
  run_view f self now req [] = (Ok (Some not_found), []).
Proof. intros Hm. apply view_rejected. now apply base_checks_get_exact. Qed.

(** X2.  On every path of [verify_signature], for a present or missing
    timestamp and a present or missing header, the method returns true
    exactly when the header is present and equals the request hash. *)
Theorem verify_signature_true_iff self req ts sig :
  verify_signature self req ts sig = Ok true
  ↔ sig = Some (request_hash (signing_secret self) ts (data req)).
Proof.
  split; [apply verify_signature_true_inv|].
  intros ->. rewrite verify_signature_eqb by (left; apply request_hash_ascii).
  now rewrite String.eqb_refl.
Qed.

Lemma passes_verified self now req :
  passes self now req →
  method req ≠ "GET"
  ∧ ∃ t n, timestamp_of req = Some t ∧ py_int (Some t) = Ok n
           ∧ (Qabs (now - inject_Z n) <= 300)%Q
           ∧ signature_of req
             = Some (request_hash (signing_secret self) (Some t) (data req)).
Proof.
  intros H. apply passes_inv in H as (_ & Hm & Hts & Hsig).
  split; [assumption|].
  destruct (out_of_range_false_inv now _ Hts) as (t & n & Et & Hn & Hle).
  exists t, n. repeat split; try assumption.
  apply verify_signature_true_inv in Hsig. now rewrite Et in Hsig.
Qed.

(** X3.  A listener receives a parsed payload only from a request whose
    method is not GET, whose timestamp header is numeric and within 300
    seconds of the clock, and whose signature header equals the request
    hash of that timestamp and the raw body. *)
Theorem payload_call_requires_verification f self now req c j :
  c ∈ snd (run_view f self now req []) →
  argument c = VJson j →
  method req ≠ "GET"
  ∧ ∃ t n, timestamp_of req = Some t ∧ py_int (Some t) = Ok n
           ∧ (Qabs (now - inject_Z n) <= 300)%Q
           ∧ signature_of req
             = Some (request_hash (signing_secret self) (Some t) (data req)).
Proof.
  intros Hc Hj.
  destruct (view_outcomes f self now req)
    as [(e & E) | [E | [[_ E] | [(_ & msg & _ & E) | [(Hp & _) | (Hp & _)]]]]];
    try (now apply passes_verified);
    rewrite E in Hc; simpl in Hc; try (now apply elem_of_nil in Hc).
  apply calls_spec in Hc as [_ Hc]. congruence.
Qed.

(** X4.  A view answers 200 only to a request that passed both checks:
    method not GET, numeric timestamp within 300 seconds of the clock,
    signature header equal to the request hash. *)
Theorem success_requires_verification f self now req resp tr :
  run_view f self now req [] = (Ok (Some resp), tr) →
  status resp = 200%Z →
  method req ≠ "GET"
  ∧ ∃ t n, timestamp_of req = Some t ∧ py_int (Some t) = Ok n
           ∧ (Qabs (now - inject_Z n) <= 300)%Q
           ∧ signature_of req
             = Some (request_hash (signing_secret self) (Some t) (data req)).
Proof.
  intros Hr Hs.
  destruct (view_outcomes f self now req)
    as [(e & E) | [E | [[_ E] | [(_ & msg & _ & E) | [(Hp & _) | (Hp & _)]]]]];
    try (now apply passes_verified);
    rewrite E in Hr; try discriminate;
    injection Hr as <- <-; discriminate.
Qed.

(** X5.  Whatever the request, a response returned by a view has status
    200, 403 or 404. *)
Theorem response_status_codes f self now req resp tr :
  run_view f self now req [] = (Ok (Some resp), tr) →
  status resp = 200%Z ∨ status resp = 403%Z ∨ status resp = 404%Z.
Proof.
  intros Hr.
  destruct (view_outcomes f self now req)
    as [(e & E) | [E | [[_ E] | [(_ & msg & _ & E) |
         [(_ & r & Hs & E) | (_ & r & t & p & Hs & E)]]]]];
    rewrite E in Hr; try discriminate; injection Hr as <- <-; auto.
Qed.

(** X6.  One request leads to at most one [emit]: the calls made by a
    view are none, or the calls of a single event name with a single
    value, one per listener registered under that name and in the order of
    registration. *)
Theorem at_most_one_emit f self now req :
  ∃ name value,
    snd (run_view f self now req []) = []
    ∨ snd (run_view f self now req []) = calls (emitter self) name value.
Proof.
  destruct (view_outcomes f self now req)
    as [(e & E) | [E | [[_ E] | [(_ & msg & _ & E) |
         [(_ & r & Hs & E) | (_ & r & t & p & Hs & E)]]]]];
    rewrite E; simpl; try (exists JNull, (VJson JNull); now left).
  - eexists _, _. right. reflexivity.
  - eexists _, _. right. reflexivity.
Qed.

(** X7.  A listener is called with an exception object only when the view
    answers 403 with an empty body; the listener is one registered under
    ["error"] and the message is one of the two verification messages. *)
Theorem error_call_means_forbidden f self now req c e :
  c ∈ snd (run_view f self now req []) →
  argument c = VExc e →
  fst (run_view f self now req []) = Ok (Some forbidden)
  ∧ callee c ∈ handlers_of (emitter self) (JStr "error")
  ∧ (message e = "Invalid request timestamp" ∨ message e = "Invalid request signature").
Proof.
  intros Hc He.
  destruct (view_outcomes f self now req)
    as [(x & E) | [E | [[_ E] | [(_ & msg & Hmsg & E) |
         [(_ & r & Hs & E) | (_ & r & t & p & Hs & E)]]]]];
    rewrite E in Hc |- *; simpl in Hc; try (now apply elem_of_nil in Hc).
  - apply calls_spec in Hc as [Hh Ha]. rewrite He in Ha. injection Ha as ->.
    simpl. auto.
  - apply calls_spec in Hc as [_ Ha]. congruence.
Qed.

(** X8.  When a view raises, no listener has been called: every
    exception leaves before the [emit] of the view. *)
Theorem raise_calls_nobody f self now req e tr :
  run_view f self now req [] = (Raise e, tr) → tr = [].
Proof.
  intros Hr.
  destruct (view_outcomes f self now req)
    as [(x & E) | [E | [[_ E] | [(_ & msg & _ & E) |
         [(_ & r & Hs & E) | (_ & r & t & p & Hs & E)]]]]];
    rewrite E in Hr; try discriminate. now injection Hr.
Qed.

(** ** Edge cases of the views *)

(** X9.  A verified request to the events view whose body is a JSON
    object with neither ["challenge"] nor ["event"] reaches the end of the
    function: the view returns [None], not a response, and no listener is
    called. *)
Theorem event_without_keys_returns_none self now req text d :
  passes self now req →
  decode_utf8 (data req) = Ok text →
  json_loads text = Ok (JObj d) →
  d !! "challenge" = None →
  d !! "event" = None →
  event self now req [] = (Ok None, []).
Proof.
  intros Hbc Htext Hjson Hc He. unfold_event. run_body.
  rewrite Htext. run_body. rewrite Hjson. run_body.
  rewrite (py_contains_absent d "challenge" Hc). run_body.
  rewrite (py_contains_absent d "event" He). reflexivity.
Qed.

(** X10.  A verified request to the events view whose body parses to a
    JSON value that is not an object never gets a response and never
    reaches a listener: the view raises [TypeError] or [AttributeError],
    or returns [None]. *)
Theorem event_non_object_body self now req text v :
  passes self now req →
  decode_utf8 (data req) = Ok text →
  json_loads text = Ok v →
  (∀ d, v ≠ JObj d) →
  event self now req [] = (Raise TypeError, [])
  ∨ event self now req [] = (Raise AttributeError, [])
  ∨ event self now req [] = (Ok None, []).
Proof.
  intros Hbc Htext Hjson Hv. unfold_event. run_body.
  rewrite Htext. run_body. rewrite Hjson. run_body.
  destruct v as [| b | n | q | s | l | d]; try (left; reflexivity).
  - unfold py_contains.
    destruct (index 0 "challenge" s); [right; left; reflexivity|].
    run_body.
    destruct (index 0 "event" s); [left; reflexivity | right; right; reflexivity].
  - unfold py_contains.
    destruct (existsb _ l); [right; left; reflexivity|].
    run_body.
    destruct (existsb _ l); [left; reflexivity | right; right; reflexivity].
  - now destruct (Hv d).
Qed.

(** X11.  A body that cannot be decoded or parsed, and a [payload] field
    that cannot be parsed, make the view raise the exception of the
    library call; nothing is answered and no listener is called. *)
Theorem parse_errors_propagate self now req e :
  passes self now req →
  (decode_utf8 (data req) = Raise e → event self now req [] = (Raise e, []))
  ∧ (∀ text, decode_utf8 (data req) = Ok text → json_loads text = Raise e →
       event self now req [] = (Raise e, []))
  ∧ (∀ field, form req !! "payload" = Some field → json_loads field = Raise e →
       interactive self now req [] = (Raise e, [])
       ∧ options self now req [] = (Raise e, [])).
Proof.
  intros Hbc. split; [|split].
  - intros H. unfold_event. run_body. rewrite H. reflexivity.
  - intros text Ht H. unfold_event. run_body. rewrite Ht. run_body. rewrite H. reflexivity.
  - intros field Hf H. split.
    + unfold_interactive. run_body. rewrite Hf. run_body. rewrite H. reflexivity.
    + unfold_options. run_body. rewrite Hf. run_body. rewrite H. reflexivity.
Qed.

(** X12.  On the same request the options view and the interactive view
    call the same listeners with the same values, raise the same
    exception or answer with the same status; they differ in the body and
    headers of the 200 answer to a dispatched payload only. *)
Theorem options_dispatches_like_interactive self now req :
  ∃ tr,
    (∃ e, options self now req [] = (Raise e, tr)
          ∧ interactive self now req [] = (Raise e, tr))
    ∨ (∃ r1 r2, options self now req [] = (Ok (Some r1), tr)
                ∧ interactive self now req [] = (Ok (Some r2), tr)
                ∧ status r1 = status r2).
Proof.
  destruct (base_checks_cases self now req [])
    as [[Hm E] | [Hm [(e & _ & E) | [[_ E] | [Hts [(e & _ & E) | [[_ E] | [Hsig E]]]]]]]].
  - eexists. right. eexists _, _.
    pose proof (view_rejected hmac_sha256 decode_utf8 json_loads env view_options
                  self now req [] _ _ E) as H1.
    pose proof (view_rejected hmac_sha256 decode_utf8 json_loads env view_interactive
                  self now req [] _ _ E) as H2.
    reduce_view H1. reduce_view H2. rewrite H1, H2. auto.
  - eexists. left. exists e.
    pose proof (view_raised hmac_sha256 decode_utf8 json_loads env view_options
                  self now req [] _ _ E) as H1.
    pose proof (view_raised hmac_sha256 decode_utf8 json_loads env view_interactive
                  self now req [] _ _ E) as H2.
    reduce_view H1. reduce_view H2. rewrite H1, H2. auto.
  - eexists. right. eexists _, _.
    pose proof (view_rejected hmac_sha256 decode_utf8 json_loads env view_options
                  self now req [] _ _ E) as H1.
    pose proof (view_rejected hmac_sha256 decode_utf8 json_loads env view_interactive
                  self now req [] _ _ E) as H2.
    reduce_view H1. reduce_view H2. rewrite H1, H2. auto.
  - eexists. left. exists e.
    pose proof (view_raised hmac_sha256 decode_utf8 json_loads env view_options
                  self now req [] _ _ E) as H1.
    pose proof (view_raised hmac_sha256 decode_utf8 json_loads env view_interactive
                  self now req [] _ _ E) as H2.
    reduce_view H1. reduce_view H2. rewrite H1, H2. auto.
  - eexists. right. eexists _, _.
    pose proof (view_rejected hmac_sha256 decode_utf8 json_loads env view_options
                  self now req [] _ _ E) as H1.
    pose proof (view_rejected hmac_sha256 decode_utf8 json_loads env view_interactive
                  self now req [] _ _ E) as H2.
    reduce_view H1. reduce_view H2. rewrite H1, H2. auto.
  - unfold_options. unfold_interactive. run_body.
    destruct (form req !! "payload") as [field|].
    + run_body. destruct (json_loads field) as [v|e].
      * run_body. destruct (py_getitem v "type") as [t|e].
        -- run_body. eexists. right. eexists _, _. repeat split; reflexivity.
        -- eexists. left. exists e. split; reflexivity.
      * eexists. left. exists e. split; reflexivity.
    + eexists. right. eexists _, _. repeat split; reflexivity.
Qed.

(** ** The replay window and the routes *)

Lemma Qle_bool_compat (a b c : Q) : (a == b)%Q → Qle_bool a c = Qle_bool b c.
Proof.
  intros Hab.
  destruct (Qle_bool a c) eqn:Ha, (Qle_bool b c) eqn:Hb; try reflexivity.
  - apply Qle_bool_iff in Ha. rewrite Hab in Ha. apply Qle_bool_iff in Ha. congruence.
  - apply Qle_bool_iff in Hb. rewrite <- Hab in Hb. apply Qle_bool_iff in Hb. congruence.
Qed.

(** X13.  The replay test is symmetric in time: a timestamp [d] seconds
    ahead of the clock is treated like one [d] seconds behind it, so a
    timestamp from the future is accepted up to 300 seconds as well. *)
Theorem replay_window_symmetric ts n d :
  py_int ts = Ok n →
  out_of_range (inject_Z n + d) ts = out_of_range (inject_Z n - d) ts.
Proof.
  intros Hn. destruct (Z.ltb_spec (Z.abs n) float_overflow_bound) as [Hb | Hb].
  - rewrite !(out_of_range_numeric env _ ts n Hn Hb). do 2 f_equal.
    apply Qle_bool_compat.
    transitivity (Qabs d).
    + apply Qabs_wd. ring.
    + rewrite <- (Qabs_opp d). apply Qabs_wd. ring.
  - now rewrite !(out_of_range_overflow env _ ts n Hn Hb).
Qed.

(** X14.  [bind_route] calls [route] once for each view whose endpoint
    attribute is a non-empty path, in the order events, interactive,
    options, with that path, the methods GET and POST and that view; an
    endpoint that is [None] or the empty string is not routed; the first
    call of [route] that raises ends the method with that exception, and
    the later endpoints are not routed. *)
Theorem bind_route_rules self server :
  bind_route self server = route_each route (enabled_routes self) server.
Proof.
  unfold_bind. unfold enabled_routes, truthy_path. cbn [flat_map endpoint_of].
  destruct (events_endpoint self) as [p1|]; [destruct (String.eqb p1 "")|];
    (destruct (interactive_endpoint self) as [p2|]; [destruct (String.eqb p2 "")|]);
    (destruct (options_endpoint self) as [p3|]; [destruct (String.eqb p3 "")|]);
    cbn [negb default from_option id app route_each];
    repeat match goal with
           | |- context [route ?s ?p ?ms ?f] =>
               destruct (route s p ms f) as [[[]|?] ?] eqn:?; cbn [route_each]
           end;
    reflexivity.
Qed.

(** ** The package header *)

Lemma powered_by_set r info :
  response_headers (set_header r "X-Slack-Powered-By" info) !! "X-Slack-Powered-By"
  = Some info.
Proof. apply lookup_insert_eq. Qed.

(** X16.  A response carries the header [X-Slack-Powered-By] only when
    the view has dispatched a payload: the status is then 200, the value
    is the [package_info] of the adapter, and the calls are those of the
    one [emit].  The 404 and 403 answers, the challenge echo and the
    answer to a form without [payload] never carry it. *)
Theorem powered_by_marks_dispatch f self now req resp tr v :
  run_view f self now req [] = (Ok (Some resp), tr) →
  response_headers resp !! "X-Slack-Powered-By" = Some v →
  v = package_info self ∧ status resp = 200%Z
  ∧ ∃ t payload, tr = calls (emitter self) t (VJson payload).
Proof.
  intros Hr Hv.
  destruct (base_checks_cases self now req [])
    as [[Hm E] | [Hm [(e & _ & E) | [[_ E] | [Hts [(e & _ & E) | [[_ E] | [Hsig E]]]]]]]];
    try (rewrite (view_rejected _ _ _ _ f _ _ _ _ _ _ E) in Hr;
         injection Hr as <- <-; discriminate);
    try (rewrite (view_raised _ _ _ _ f _ _ _ _ _ _ E) in Hr; discriminate).
  destruct f; reduce_view Hr.
  - revert Hr. unfold_event. run_body.
    destruct (decode_utf8 (data req)) as [text|e]; [|discriminate].
    run_body. destruct (json_loads text) as [j|e]; [|discriminate].
    run_body. destruct (py_contains j "challenge") as [[|]|e]; [| |discriminate].
    + run_body. destruct (py_get j "challenge") as [c|e]; [|discriminate].
      run_body. destruct (is_response_body c) eqn:Hc.
      * rewrite (make_response_accepts c _ _ Hc). intros [= <- <-]. discriminate.
      * rewrite (make_response_refuses c _ _ Hc). discriminate.
    + run_body. destruct (py_contains j "event") as [[|]|e]; [| |discriminate].
      * run_body. destruct (py_getitem j "event") as [inner|e]; [|discriminate].
        run_body. destruct (py_getitem inner "type") as [t|e]; [|discriminate].
        run_body. intros [= <- <-]. rewrite powered_by_set in Hv.
        injection Hv as <-. eauto.
      * discriminate.
  - revert Hr. unfold_interactive. run_body.
    destruct (form req !! "payload") as [field|].
    + run_body. destruct (json_loads field) as [j|e]; [|discriminate].
      run_body. destruct (py_getitem j "type") as [t|e]; [|discriminate].
      run_body. intros [= <- <-]. rewrite powered_by_set in Hv.
      injection Hv as <-. eauto.
    + intros [= <- <-]. discriminate.
  - revert Hr. unfold_options. run_body.
    destruct (form req !! "payload") as [field|].
    + run_body. destruct (json_loads field) as [j|e]; [|discriminate].
      run_body. destruct (py_getitem j "type") as [t|e]; [|discriminate].
      run_body. intros [= <- <-]. rewrite powered_by_set in Hv.
      injection Hv as <-. eauto.
    + intros [= <- <-]. discriminate.
Qed.

(** X17.  Where the [type] is looked up on a value that is not an object
    (the [event] of an events body, the parsed [payload] of a form), the
    subscript raises [TypeError]; nothing is answered and no listener is
    called. *)
Theorem type_lookup_on_non_object self now req :
  passes self now req →
  (∀ text d inner,
      decode_utf8 (data req) = Ok text →
      json_loads text = Ok (JObj d) →
      d !! "challenge" = None →
      d !! "event" = Some inner →
      (∀ o, inner ≠ JObj o) →
      event self now req [] = (Raise TypeError, []))
  ∧ (∀ field v,
        form req !! "payload" = Some field →
        json_loads field = Ok v →
        (∀ o, v ≠ JObj o) →
        interactive self now req [] = (Raise TypeError, [])
        ∧ options self now req [] = (Raise TypeError, [])).
Proof.
  intros Hbc.
  assert (Hget : ∀ v, (∀ o, v ≠ JObj o) → py_getitem v "type" = Raise TypeError).
  { intros v Hv. destruct v; try reflexivity. now destruct (Hv d). }
  split.
  - intros text d inner Htext Hjson Hc He Hinner.
    unfold_event. run_body. rewrite Htext. run_body. rewrite Hjson. run_body.
    rewrite (py_contains_absent d "challenge" Hc). run_body.
    rewrite (py_contains_present d "event" inner He). run_body.
    simpl py_getitem at 1. rewrite He. run_body. rewrite (Hget inner Hinner). reflexivity.
  - intros field v Hf Hjson Hv. split.
    + unfold_interactive. run_body. rewrite Hf. run_body. rewrite Hjson. run_body.
      rewrite (Hget v Hv). reflexivity.
    + unfold_options. run_body. rewrite Hf. run_body. rewrite Hjson. run_body.
      rewrite (Hget v Hv). reflexivity.
Qed.

(** ** Exceptions of the fixed model *)

(** X20.  A timestamp header that [int] reads as a number of absolute
    value 2^1024 - 2^970 or more makes the subtraction of line 96 raise:
    on a request whose method is not GET every view raises
    [OverflowError], answers nothing and calls no listener, whatever the
    clock reads and whatever the signature header is. *)
Theorem overflowing_timestamp_raises f self now req t n :
  method req ≠ "GET" →
  timestamp_of req = Some t →
  py_int (Some t) = Ok n →
  (float_overflow_bound <= Z.abs n)%Z →
  run_view f self now req [] = (Raise OverflowError, []).
Proof.
  intros Hm Hts Hn Hb. apply view_raised, base_checks_timestamp_raises; [assumption|].
  rewrite Hts. now apply (out_of_range_overflow env now (Some t) n).
Qed.

(** X21.  On a verified request to the events view whose body is a JSON
    object with a ["challenge"] that is [null], a Boolean or a number,
    [make_response] refuses the value: the view raises [TypeError],
    answers nothing and calls no listener. *)
Theorem challenge_not_a_body_raises self now req text d c :
  passes self now req →
  decode_utf8 (data req) = Ok text →
  json_loads text = Ok (JObj d) →
  d !! "challenge" = Some c →
  is_response_body c = false →
  event self now req [] = (Raise TypeError, []).
Proof.
  intros Hbc Htext Hjson Hc Hbody. unfold_event. run_body.
  rewrite Htext. run_body. rewrite Hjson. run_body.
  rewrite (py_contains_present d "challenge" c Hc). run_body.
  simpl py_get. rewrite Hc. simpl default. run_body.
  rewrite (make_response_refuses c _ _ Hbody). reflexivity.
Qed.

End Coverage.

(** ** The further properties on the sample deployment *)

Lemma get_request_not_found_witness :
  wide_view view_options sample_now request_get = (Ok (Some not_found), []).
Proof.
  apply (get_request_not_found wide_hmac sample_decode_utf8 wide_json_loads sample_env
           view_options sample_self sample_now request_get).
  reflexivity.
Defined.

Lemma payload_call_requires_verification_witness :
  method request_message ≠ "GET"
  ∧ ∃ t n, headers request_message !! "X-Slack-Request-Timestamp" = Some t
           ∧ py_int sample_env (Some t) = Ok n
           ∧ (Qabs (sample_now - inject_Z n) <= 300)%Q
           ∧ headers request_message !! "X-Slack-Signature"
             = Some (request_hash sample_hmac (signing_secret sample_self) (Some t)
                       (data request_message)).
Proof.
  apply (payload_call_requires_verification sample_hmac sample_decode_utf8
           sample_json_loads sample_env view_event sample_self sample_now request_message
           {| callee := 1; argument := VJson json_message |} json_message).
  - assert (E : snd (run_view sample_hmac sample_decode_utf8 sample_json_loads sample_env
                       view_event sample_self sample_now request_message [])
                = [ {| callee := 1; argument := VJson json_message |};
                    {| callee := 2; argument := VJson json_message |} ])
      by (vm_compute; reflexivity).
    rewrite E. apply list_elem_of_here.
  - reflexivity.
Defined.

Lemma success_requires_verification_witness :
  method request_challenge ≠ "GET"
  ∧ ∃ t n, headers request_challenge !! "X-Slack-Request-Timestamp" = Some t
           ∧ py_int sample_env (Some t) = Ok n
           ∧ (Qabs (sample_now - inject_Z n) <= 300)%Q
           ∧ headers request_challenge !! "X-Slack-Signature"
             = Some (request_hash sample_hmac (signing_secret sample_self) (Some t)
                       (data request_challenge)).
Proof.
  apply (success_requires_verification sample_hmac sample_decode_utf8 sample_json_loads
           sample_env view_event sample_self sample_now request_challenge
           {| body := JStr "abc123"; status := 200;
              response_headers := {[ "content_type" := "application/json" ]} |}
           []).
  - vm_compute. reflexivity.
  - reflexivity.
Defined.

Lemma response_status_codes_witness :
  ∃ resp tr,
    sample_view view_interactive stale_now request_block_actions = (Ok (Some resp), tr)
    ∧ (status resp = 200 ∨ status resp = 403 ∨ status resp = 404)%Z.
Proof.
  exists forbidden, (sample_error_calls "Invalid request timestamp").
  assert (E : sample_view view_interactive stale_now request_block_actions
              = (Ok (Some forbidden),
                 sample_error_calls "Invalid request timestamp"))
    by (vm_compute; reflexivity).
  split; [exact E|].
  exact (response_status_codes sample_hmac sample_decode_utf8 sample_json_loads
           sample_env view_interactive sample_self stale_now request_block_actions
           _ _ E).
Defined.

Lemma error_call_means_forbidden_witness :
  fst (sample_view view_event stale_now request_message) = Ok (Some forbidden)
  ∧ 0 ∈ handlers_of sample_emitter (JStr "error")
  ∧ ("Invalid request timestamp" = "Invalid request timestamp"
     ∨ "Invalid request timestamp" = "Invalid request signature").
Proof.
  apply (error_call_means_forbidden sample_hmac sample_decode_utf8 sample_json_loads
           sample_env view_event sample_self stale_now request_message
           {| callee := 0; argument := VExc {| message := "Invalid request timestamp" |} |}
           {| message := "Invalid request timestamp" |}).
  - assert (E : snd (run_view sample_hmac sample_decode_utf8 sample_json_loads sample_env
                       view_event sample_self stale_now request_message [])
                = sample_error_calls "Invalid request timestamp")
      by (vm_compute; reflexivity).
    rewrite E. apply list_elem_of_here.
  - reflexivity.
Defined.

Lemma raise_calls_nobody_witness :
  ∃ tr, sample_view view_event sample_now request_untyped = (Raise (KeyError "type"), tr)
        ∧ tr = [].
Proof.
  exists [].
  assert (E : sample_view view_event sample_now request_untyped
              = (Raise (KeyError "type"), [])) by (vm_compute; reflexivity).
  split; [exact E|].
  exact (raise_calls_nobody sample_hmac sample_decode_utf8 sample_json_loads sample_env
           view_event sample_self sample_now request_untyped _ _ E).
Defined.

Lemma event_without_keys_returns_none_witness :
  wide_view view_event sample_now request_empty_body_object = (Ok None, []).
Proof.
  apply (event_without_keys_returns_none wide_hmac sample_decode_utf8 wide_json_loads
           sample_env sample_self sample_now request_empty_body_object
           text_empty_object ∅); vm_compute; reflexivity.
Defined.

Lemma event_non_object_body_witness :
  wide_view view_event sample_now request_challenge_list = (Raise TypeError, [])
  ∨ wide_view view_event sample_now request_challenge_list = (Raise AttributeError, [])
  ∨ wide_view view_event sample_now request_challenge_list = (Ok None, []).
Proof.
  apply (event_non_object_body wide_hmac sample_decode_utf8 wide_json_loads sample_env
           sample_self sample_now request_challenge_list text_challenge_list
           (JArr [JStr "challenge"])).
  - vm_compute. reflexivity.
  - vm_compute. reflexivity.
  - vm_compute. reflexivity.
  - intros d. discriminate.
Defined.

Example challenge_list_raises :
  wide_view view_event sample_now request_challenge_list = (Raise AttributeError, []).
Proof. vm_compute. reflexivity. Qed.

Lemma parse_errors_propagate_witness :
  wide_view view_event sample_now request_broken = (Raise JSONDecodeError, [])
  ∧ wide_view view_interactive sample_now request_broken_payload
    = (Raise JSONDecodeError, [])
  ∧ wide_view view_options sample_now request_broken_payload
    = (Raise JSONDecodeError, []).
Proof.
  split.
  - destruct (parse_errors_propagate wide_hmac sample_decode_utf8 wide_json_loads
                sample_env sample_self sample_now request_broken JSONDecodeError)
      as (_ & H & _); [vm_compute; reflexivity|].
    apply (H text_broken); vm_compute; reflexivity.
  - destruct (parse_errors_propagate wide_hmac sample_decode_utf8 wide_json_loads
                sample_env sample_self sample_now request_broken_payload JSONDecodeError)
      as (_ & _ & H); [vm_compute; reflexivity|].
    apply (H "oops"); vm_compute; reflexivity.
Defined.

Lemma replay_window_symmetric_witness :
  out_of_range sample_env (inject_Z 1531420618 + 299) (Some sample_timestamp)
  = out_of_range sample_env (inject_Z 1531420618 - 299) (Some sample_timestamp).
Proof.
  apply (replay_window_symmetric sample_env (Some sample_timestamp) 1531420618 299).
  reflexivity.
Defined.

Example future_timestamp_accepted :
  out_of_range sample_env (inject_Z 1531420618 - 299) (Some sample_timestamp) = Ok false
  ∧ out_of_range sample_env (inject_Z 1531420618 - 301) (Some sample_timestamp) = Ok true.
Proof. split; vm_compute; reflexivity. Qed.

Example partial_routes :
  bind_route sample_route partial_self sample_app
  = (Ok (),
     {| import_name := "app";
        url_map :=
          [ {| rule := "/health"; methods := ["GET"; "HEAD"; "OPTIONS"];
               endpoint := "health" |};
            {| rule := "/slack/events"; methods := ["GET"; "POST"; "HEAD"; "OPTIONS"];
               endpoint := "event" |} ] |}).
Proof. vm_compute. reflexivity. Qed.

Example taken_endpoint_stops_binding :
  enabled_routes sample_self
  = [ ("/slack/events", view_event); ("/slack/interactive", view_interactive);
      ("/slack/options", view_options) ]
  ∧ fst (bind_route sample_route sample_self taken_app) = Raise AssertionError
  ∧ rule <$> url_map (snd (bind_route sample_route sample_self taken_app))
    = ["/event"; "/slack/events"].
Proof. repeat split; vm_compute; reflexivity. Qed.

Lemma powered_by_marks_dispatch_witness :
  ∃ resp tr,
    sample_view view_options sample_now request_block_actions = (Ok (Some resp), tr)
    ∧ response_headers resp !! "X-Slack-Powered-By" = Some (package_info sample_self)
    ∧ status resp = 200%Z
    ∧ ∃ t payload, tr = calls sample_emitter t (VJson payload).
Proof.
  eexists _, _.
  assert (E : sample_view view_options sample_now request_block_actions
              = (Ok (Some (set_header
                             {| body := JArr options_list; status := 200;
                                response_headers :=
                                  {[ "content_type" := "application/json" ]} |}
                             "X-Slack-Powered-By" (package_info sample_self))),
                 calls sample_emitter (JStr "block_actions") (VJson json_block_actions)))
    by (vm_compute; reflexivity).
  assert (Hv : response_headers
                 (set_header
                    {| body := JArr options_list; status := 200;
                       response_headers := {[ "content_type" := "application/json" ]} |}
                    "X-Slack-Powered-By" (package_info sample_self))
               !! "X-Slack-Powered-By" = Some (package_info sample_self))
    by (vm_compute; reflexivity).
  split; [exact E|]. split; [exact Hv|].
  exact (proj2 (powered_by_marks_dispatch sample_hmac sample_decode_utf8 sample_json_loads
                  sample_env view_options sample_self sample_now request_block_actions
                  _ _ _ E Hv)).
Defined.

Example challenge_echo_has_no_package_header :
  ∃ resp, sample_view view_event sample_now request_challenge = (Ok (Some resp), [])
          ∧ response_headers resp !! "X-Slack-Powered-By" = None.
Proof. eexists. split; vm_compute; reflexivity. Qed.

Lemma type_lookup_on_non_object_witness :
  wide_view view_interactive sample_now request_list_payload = (Raise TypeError, [])
  ∧ wide_view view_options sample_now request_list_payload = (Raise TypeError, []).
Proof.
  destruct (type_lookup_on_non_object wide_hmac sample_decode_utf8 wide_json_loads
              sample_env sample_self sample_now request_list_payload)
    as (_ & H); [vm_compute; reflexivity|].
  apply (H text_challenge_list (JArr [JStr "challenge"]));
    [vm_compute; reflexivity | vm_compute; reflexivity | intros o; discriminate].
Defined.

Lemma overflowing_timestamp_raises_witness :
  sample_view view_interactive sample_now request_huge_timestamp
  = (Raise OverflowError, []).
Proof.
  apply (overflowing_timestamp_raises sample_hmac sample_decode_utf8 sample_json_loads
           sample_env view_interactive sample_self sample_now request_huge_timestamp
           huge_timestamp (10 ^ 309)).
  - discriminate.
  - reflexivity.
  - vm_compute. reflexivity.
  - vm_compute. discriminate.
Defined.

Lemma challenge_not_a_body_raises_witness :
  wide_view view_event sample_now request_numeric_challenge = (Raise TypeError, []).
Proof.
  apply (challenge_not_a_body_raises wide_hmac sample_decode_utf8 wide_json_loads
           sample_env sample_self sample_now request_numeric_challenge
           text_numeric_challenge {[ "challenge" := JInt 5 ]} (JInt 5)).
  - vm_compute. reflexivity.
  - vm_compute. reflexivity.
  - vm_compute. reflexivity.
  - vm_compute. reflexivity.
  - reflexivity.
Defined.
